(** * The Grape.ai build worker ([builder/worker.py])

    A shallow embedding of the worker's pipeline
    (detection, build, artifact resolution, staging) and the proofs of
    the properties its specification states.

    The worker talks to three external facilities, modelled as follows.

    - The file system is a finite tree of regular files and directories
      (no symbolic links, no permissions, no special files).  The
      functions of [os], [os.path] and [shutil] the worker calls are
      functions on that tree; those which can raise return a [result].
    - [subprocess.run] is an arbitrary function from the command, the
      working directory, the timeout and the file system to what the
      call does (returns a completed process, raises [TimeoutExpired],
      raises anything else) and the file system the command leaves.
    - [json.load] is an arbitrary partial function from the text of a
      file to a JSON value.

    Logging has no influence on control flow or on the file system and is
    left out. *)

From Stdlib Require Import ZArith String Ascii List Bool.
From stdpp Require Import gmap strings list fin_maps option.

Set Warnings "-register-all".
Local Open Scope Z_scope.
Local Open Scope string_scope.
Local Open Scope list_scope.

(* ===================================================================== *)
(** * Python exceptions and results *)
(* ===================================================================== *)

(** The exceptions the modelled library calls can raise. *)
Inductive exn :=
| FileNotFoundError
| NotADirectoryError
| IsADirectoryError
| FileExistsError
| OSError          (* removing the root directory *)
| RecursionError.  (* [shutil.copytree] copying a tree into itself *)

Inductive result (A : Type) :=
| Ok (a : A)
| Raise (e : exn).
Arguments Ok {A} a.
Arguments Raise {A} e.

#[export] Instance result_ret : MRet result := fun A a => Ok a.
#[export] Instance result_bind : MBind result := fun A B f r =>
  match r with
  | Ok a => f a
  | Raise e => Raise e
  end.

(* ===================================================================== *)
(** * The file system *)
(* ===================================================================== *)

(** A path is the list of its components below the root: [/srv/app] is
    [["srv"; "app"]] and [/] is [[]]. *)
Abbreviation path := (list string).

Inductive node :=
| File (content : string)
| Dir (entries : gmap string node).

(** A file system is its root node. *)
Abbreviation fs := node.

(** [resolve p n] is the node reached from [n] along [p], if any. *)
Fixpoint resolve (p : path) (n : node) : option node :=
  match p with
  | [] => Some n
  | c :: p' =>
      match n with
      | Dir m => m !! c ≫= resolve p'
      | File _ => None
      end
  end.

(** [place p t n] puts [t] at [p], creating the missing directories on
    the way. *)
Fixpoint place (p : path) (t : node) (n : node) : node :=
  match p with
  | [] => t
  | c :: p' =>
      let m := match n with Dir m => m | File _ => ∅ end in
      Dir (<[c := place p' t (default (Dir ∅) (m !! c))]> m)
  end.

(** [remove p n] unlinks the entry at [p] (with all that is below it). *)
Fixpoint remove (p : path) (n : node) : node :=
  match p, n with
  | c :: p', Dir m =>
      match p' with
      | [] => Dir (delete c m)
      | _ :: _ => Dir (alter (remove p') c m)
      end
  | _, _ => n
  end.

(** Whether a regular file sits at [n] or on the way from [n] along [p],
    strictly above the end of [p]: nothing can be created at [p] then. *)
Fixpoint blocked (p : path) (n : node) : bool :=
  match p with
  | [] => false
  | c :: p' =>
      match n with
      | File _ => true
      | Dir m =>
          match m !! c with
          | Some n' => blocked p' n'
          | None => false
          end
      end
  end.

(** ** [os.path] *)

(** [os.path.exists] *)
Definition path_exists (p : path) (s : fs) : bool :=
  match resolve p s with
  | Some _ => true
  | None => false
  end.

(** [os.path.isdir] *)
Definition path_isdir (p : path) (s : fs) : bool :=
  match resolve p s with
  | Some (Dir _) => true
  | _ => false
  end.

(** A directory with at least one entry is at [p]. *)
Definition nonempty_dir (p : path) (s : fs) : Prop :=
  ∃ m, resolve p s = Some (Dir m) ∧ m ≠ ∅.

(** Splitting a string at its slashes: ["a/b"] gives [["a"; "b"]]. *)
Fixpoint split_slash (s : string) : list string :=
  match s with
  | EmptyString => [EmptyString]
  | String c s' =>
      if Ascii.eqb c "/" then EmptyString :: split_slash s'
      else match split_slash s' with
           | [] => [String c EmptyString]
           | w :: ws => String c w :: ws
           end
  end.

(** [os.path.join p rel] for a relative [rel] made of plain names, which
    is all the worker joins. *)
Definition path_join (p : path) (rel : string) : path :=
  p ++ split_slash rel.

(** One step of [os.path.normpath]: empty components and [.] vanish,
    [..] drops the last component (and stays at the root). The stack is
    the path so far, innermost component first. *)
Definition norm_step (stack : list string) (comp : string) : list string :=
  if String.eqb comp EmptyString || String.eqb comp "." then stack
  else if String.eqb comp ".." then tail stack
  else comp :: stack.

Definition normpath (comps : list string) : path :=
  rev (fold_left norm_step comps []).

(** [os.path.abspath], in the working directory [cwd]. (A path that
    starts with exactly two slashes names the same file as with one.) *)
Definition abspath (cwd : path) (s : string) : path :=
  match s with
  | String "/" _ => normpath (split_slash s)
  | _ => normpath (cwd ++ split_slash s)
  end.

(** ** [os] *)

(** [os.listdir] *)
Definition listdir (p : path) (s : fs) : result (list string) :=
  match resolve p s with
  | Some (Dir m) => Ok (map_to_list m).*1
  | Some (File _) => Raise NotADirectoryError
  | None => Raise FileNotFoundError
  end.

(** [os.makedirs p exist_ok] *)
Definition makedirs (p : path) (exist_ok : bool) (s : fs) : result fs :=
  match resolve p s with
  | Some (Dir _) => if exist_ok then Ok s else Raise FileExistsError
  | Some (File _) => Raise FileExistsError
  | None => if blocked p s then Raise NotADirectoryError
            else Ok (place p (Dir ∅) s)
  end.

(** [open(p, 'w')] followed by [write content] and the closing of the
    file. *)
Definition write_text (p : path) (content : string) (s : fs) : result fs :=
  match resolve p s with
  | Some (Dir _) => Raise IsADirectoryError
  | Some (File _) => Ok (place p (File content) s)
  | None =>
      match resolve (removelast p) s with
      | Some (Dir _) => Ok (place p (File content) s)
      | Some (File _) => Raise NotADirectoryError
      | None => Raise FileNotFoundError
      end
  end.

(** [open(p, 'r')] followed by [read]. *)
Definition read_text (p : path) (s : fs) : result string :=
  match resolve p s with
  | Some (File content) => Ok content
  | Some (Dir _) => Raise IsADirectoryError
  | None => Raise FileNotFoundError
  end.

(** ** [shutil] *)

(** [shutil.rmtree] *)
Definition rmtree (p : path) (s : fs) : result fs :=
  match resolve p s with
  | Some (Dir _) =>
      match p with
      | [] => Raise OSError
      | _ :: _ => Ok (remove p s)
      end
  | Some (File _) => Raise NotADirectoryError
  | None => Raise FileNotFoundError
  end.

(** [strip_prefix p q] is what is left of [q] below [p]. *)
Fixpoint strip_prefix (p q : path) : option path :=
  match p, q with
  | [], _ => Some q
  | a :: p', b :: q' => if decide (a = b) then strip_prefix p' q' else None
  | _ :: _, [] => None
  end.

(** [shutil.copytree src dst] lists [src], creates [dst] and then copies
    the listed entries one by one, directories by a recursive call. When
    [dst] lies two or more levels below [src] and the directory of [src]
    on the way to it exists, each call creates a directory inside the
    tree the next call lists, and the copy goes on until the interpreter
    or the operating system stops it. *)
Definition copies_into_itself (src dst : path) (s : fs) : bool :=
  match strip_prefix src dst with
  | Some (c :: _ :: _) => path_isdir (src ++ [c]) s
  | _ => false
  end.

Definition copytree (src dst : path) (s : fs) : result fs :=
  match resolve src s with
  | Some (Dir m) =>
      match resolve dst s with
      | Some _ => Raise FileExistsError
      | None =>
          if blocked dst s then Raise NotADirectoryError
          else if copies_into_itself src dst s then Raise RecursionError
          else Ok (place dst (Dir m) s)
      end
  | Some (File _) => Raise NotADirectoryError
  | None => Raise FileNotFoundError
  end.

(* ===================================================================== *)
(** * JSON values, as [json.load] returns them *)
(* ===================================================================== *)

Inductive json :=
| JNull
| JBool (b : bool)
| JInt (z : Z)
| JFloat (literal : string)
| JStr (s : string)
| JArr (items : list json)
| JObj (members : gmap string json).

(** [sub in s] for two strings. *)
Fixpoint contains (sub s : string) : bool :=
  String.prefix sub s ||
  match s with
  | EmptyString => false
  | String _ s' => contains sub s'
  end.

(** [key == v] for a string [key]. *)
Definition str_equals (key : string) (v : json) : bool :=
  match v with
  | JStr s => String.eqb key s
  | _ => false
  end.

(** Python's [key in container] for a string [key]: membership among the
    keys of a dict, among the items of a list, as a substring of a string;
    a [TypeError] ([None] here) for anything else. *)
Definition py_in (key : string) (container : json) : option bool :=
  match container with
  | JObj m => Some (bool_decide (is_Some (m !! key)))
  | JArr l => Some (existsb (str_equals key) l)
  | JStr s => Some (contains key s)
  | JNull | JBool _ | JInt _ | JFloat _ => None
  end.

(** [a or b], where [b] is evaluated only when [a] is false. *)
Definition py_or (a b : option bool) : option bool :=
  match a with
  | Some true => Some true
  | Some false => b
  | None => None
  end.

(** [pkg.get(key, {})]: an [AttributeError] ([None] here) when [pkg] is
    not a dict. *)
Definition py_get (pkg : json) (key : string) : option json :=
  match pkg with
  | JObj m => Some (default (JObj ∅) (m !! key))
  | _ => None
  end.

(* ===================================================================== *)
(** * The worker *)
(* ===================================================================== *)

Inductive project_type := nextjs | vite | cra | node_type | static | unknown.

#[export] Instance project_type_eq_dec : EqDecision project_type.
Proof. solve_decision. Defined.

(** The tag as the source spells it. *)
Definition tag (t : project_type) : string :=
  match t with
  | nextjs => "nextjs"
  | vite => "vite"
  | cra => "cra"
  | node_type => "node"
  | static => "static"
  | unknown => "unknown"
  end.

(** What a call of [subprocess.run] does. *)
Inductive run_outcome :=
| CompletedProcess (returncode : Z) (stdout stderr : string)
| TimeoutExpired
| OtherException (description : string).

(** How the interpreter leaves [main]. *)
Inductive termination :=
| Returned (s : fs)          (* [main] ran to its end, leaving [s] *)
| SysExit (status : Z)       (* [sys.exit status] *)
| Uncaught (e : exn).        (* an exception reached the top level *)

(** The exit status of the process: 0 when [main] returns, the argument
    of [sys.exit], and 1 when the interpreter prints the traceback of an
    uncaught exception. *)
Definition exit_status (t : termination) : Z :=
  match t with
  | Returned _ => 0
  | SysExit status => status
  | Uncaught _ => 1
  end.

Definition nl : string := String "010" EmptyString.
Definition dq : string := String "034" EmptyString.
(** The grape of the page, U+1F347, in UTF-8. *)
Definition grape : string :=
  String "240" (String "159" (String "141" (String "135" EmptyString))).

(** The f-string of [create_fallback_page]. *)
Definition html_content (message : string) : string :=
  String.concat nl [
    "<!DOCTYPE html>";
    "<html lang=" +:+ dq +:+ "en" +:+ dq +:+ ">";
    "<head>";
    "    <meta charset=" +:+ dq +:+ "UTF-8" +:+ dq +:+ ">";
    "    <meta name=" +:+ dq +:+ "viewport" +:+ dq +:+ " content=" +:+ dq
      +:+ "width=device-width, initial-scale=1.0" +:+ dq +:+ ">";
    "    <title>Grape.ai Deployment</title>";
    "    <style>";
    "        body {";
    "            font-family: system-ui, -apple-system, sans-serif;";
    "            margin: 0;";
    "            padding: 40px;";
    "            background: linear-gradient(135deg, #667eea 0%, #764ba2 100%);";
    "            color: white;";
    "            min-height: 100vh;";
    "            display: flex;";
    "            align-items: center;";
    "            justify-content: center;";
    "        }";
    "        .container {";
    "            text-align: center;";
    "            background: rgba(255,255,255,0.1);";
    "            padding: 40px;";
    "            border-radius: 20px;";
    "            backdrop-filter: blur(10px);";
    "        }";
    "        h1 { margin: 0 0 20px 0; }";
    "        .grape { font-size: 48px; }";
    "    </style>";
    "</head>";
    "<body>";
    "    <div class=" +:+ dq +:+ "container" +:+ dq +:+ ">";
    "        <div class=" +:+ dq +:+ "grape" +:+ dq +:+ ">" +:+ grape +:+ "</div>";
    "        <h1>Grape.ai</h1>";
    "        <p>" +:+ message +:+ "</p>";
    "        <p><small>Powered by Grape.ai hosting platform</small></p>";
    "    </div>";
    "</body>";
    "</html>"
  ].

(** The directory names [find_build_output] tries, in its order. *)
Definition candidates : list string :=
  ["dist"; "build"; "out"; ".next/standalone"; ".next/out"; "public"; "_site"].

(** The body of the [try] of [detect_project_type], from the parsed
    manifest on; [None] when it raises. *)
Definition classify_manifest (pkg : json) : option project_type :=
  scripts ← py_get pkg "scripts";
  deps ← py_get pkg "dependencies";
  is_next ← py_in "next" deps;
  if (is_next : bool) then Some nextjs
  else
    is_vite ← py_or (py_in "vite" deps) (py_in "build" scripts);
    if (is_vite : bool) then Some vite
    else
      is_cra ← py_in "react-scripts" deps;
      if (is_cra : bool) then Some cra
      else
        has_build ← py_in "build" scripts;
        if (has_build : bool) then Some node_type else Some static.

Section Worker.

(** [subprocess.run cmd cwd timeout], and the file system it leaves. *)
Variable subprocess_run : list string → path → Z → fs → run_outcome * fs.
(** [json.load] on the text of a file. *)
Variable json_load : string → option json.
(** [os.getcwd ()] *)
Variable getcwd : path.

Definition run_command (cmd : list string) (cwd : path) (s : fs)
  : (bool * string * string) * fs :=
  let '(r, s') := subprocess_run cmd cwd 600 s in
  match r with
  | CompletedProcess returncode stdout stderr =>
      ((bool_decide (returncode = 0), stdout, stderr), s')
  | TimeoutExpired =>
      ((false, EmptyString, "Build timed out after 10 minutes"), s')
  | OtherException e =>
      ((false, EmptyString, e), s')
  end.

Definition detect_project_type (project_path : path) (s : fs) : project_type :=
  let package_json := path_join project_path "package.json" in
  let index_html := path_join project_path "index.html" in
  let tried :=
    if path_exists package_json s then
      match read_text package_json s with
      | Ok text => json_load text ≫= classify_manifest
      | Raise _ => None
      end
    else None in
  match tried with
  | Some t => t
  | None => if path_exists index_html s then static else unknown
  end.

Definition build_node_project (project_path : path) (s : fs)
  : (bool * string) * fs :=
  let '((npm_check, _, _), s1) := run_command ["which"; "npm"] project_path s in
  if negb npm_check then ((false, "npm not available"), s1)
  else
    let '((success, stdout, stderr), s2) :=
      run_command ["npm"; "install"] project_path s1 in
    if negb success then ((false, "npm install failed: " +:+ stderr), s2)
    else
      let '((success, stdout, stderr), s3) :=
        run_command ["npm"; "run"; "build"] project_path s2 in
      if negb success then
        ((true, "No build script found, serving source files"), s3)
      else ((true, "Build completed successfully"), s3).

(** The [for] loop of [find_build_output]. *)
Fixpoint find_among (cs : list string) (project_path : path) (s : fs)
  : result (option path) :=
  match cs with
  | [] => Ok None
  | candidate :: rest =>
      let full_path := path_join project_path candidate in
      if path_exists full_path s && path_isdir full_path s then
        names ← listdir full_path s;
        match names with
        | _ :: _ => Ok (Some full_path)
        | [] => find_among rest project_path s
        end
      else find_among rest project_path s
  end.

Definition find_build_output (project_path : path) (s : fs)
  : result (option path) :=
  find_among candidates project_path s.

Definition copy_to_deploy (source deploy_path : path) (s : fs) : result fs :=
  s1 ← (if path_exists deploy_path s then rmtree deploy_path s else Ok s);
  copytree source deploy_path s1.

Definition create_fallback_page (deploy_path : path) (message : string) (s : fs)
  : result fs :=
  s1 ← makedirs deploy_path true s;
  write_text (path_join deploy_path "index.html") (html_content message) s1.

(** [main], lines 185 to 197: classification, build, search of the
    output. *)
Definition build_phase (project_path : path) (s : fs)
  : result (bool * string * option path * fs) :=
  let project_type := detect_project_type project_path s in
  let '((build_success, build_message), s1) :=
    if bool_decide (project_type ∈ [nextjs; vite; cra; node_type])
    then build_node_project project_path s
    else ((true, EmptyString), s) in
  build_output ← find_build_output project_path s1;
  Ok (build_success, build_message, build_output, s1).

(** [main], lines 199 to 209: the three ways to fill the deploy
    directory. *)
Definition stage (build_output : option path) (project_path deploy_path : path)
    (build_success : bool) (build_message : string) (s : fs) : result fs :=
  match build_output with
  | Some out => copy_to_deploy out deploy_path s
  | None =>
      if path_exists (path_join project_path "index.html") s then
        copy_to_deploy project_path deploy_path s
      else if build_success then
        create_fallback_page deploy_path "Project built but no output found" s
      else
        create_fallback_page deploy_path ("Build failed: " +:+ build_message) s
  end.

(** [main], lines 211 to 214. *)
Definition ensure_index (deploy_path : path) (s : fs) : result fs :=
  let index_path := path_join deploy_path "index.html" in
  if negb (path_exists index_path s) then
    create_fallback_page deploy_path "Deployment completed" s
  else Ok s.

(** The pipeline from the two absolute paths on. *)
Definition pipeline (project_path deploy_path : path) (s : fs) : result fs :=
  '(build_success, build_message, build_output, s1) ← build_phase project_path s;
  s2 ← stage build_output project_path deploy_path build_success build_message s1;
  ensure_index deploy_path s2.

Definition main (argv : list string) (s : fs) : termination :=
  match argv with
  | [_; arg1; arg2] =>
      let project_path := abspath getcwd arg1 in
      let deploy_path := abspath getcwd arg2 in
      if negb (path_exists project_path s) then SysExit 1
      else
        match pipeline project_path deploy_path s with
        | Ok s' => Returned s'
        | Raise e => Uncaught e
        end
  | _ => SysExit 1
  end.

(** The two conditions under which [main] calls [sys.exit(1)]. *)
Definition fatal_arguments (argv : list string) (s : fs) : Prop :=
  length argv ≠ 3%nat ∨
  ∃ prog arg1 arg2,
    argv = [prog; arg1; arg2] ∧ path_exists (abspath getcwd arg1) s = false.

End Worker.

(* ===================================================================== *)
(** * Notions used in the statements *)
(* ===================================================================== *)

(** Neither path is the other or lies below it. *)
Definition diverge (p q : path) : Prop :=
  strip_prefix p q = None ∧ strip_prefix q p = None.

(** The entries of the directory at [p]; none when no directory is
    there. *)
Definition entries_at (p : path) (s : fs) : gmap string node :=
  match resolve p s with
  | Some (Dir m) => m
  | _ => ∅
  end.

(** The page up to the place of the message, and from there on: the
    page for the empty message, cut after the [<p>] that opens the
    paragraph of the message. *)
Definition html_prefix : string :=
  let page := html_content EmptyString in
  match index 0 "<p>" page with
  | Some n => substring 0 (n + 3) page
  | None => page
  end.

Definition html_suffix : string :=
  let page := html_content EmptyString in
  substring (String.length html_prefix)
    (String.length page - String.length html_prefix) page.

(* ===================================================================== *)
(** * Sample inputs *)
(* ===================================================================== *)

(** A manifest with a build script and nothing else. *)
Definition build_only_text : string :=
  "{" +:+ dq +:+ "scripts" +:+ dq +:+ ": {" +:+ dq +:+ "build" +:+ dq
    +:+ ": " +:+ dq +:+ "x" +:+ dq +:+ "}}".

Definition build_only_manifest : json :=
  JObj {[ "scripts" := JObj {[ "build" := JStr "x" ]} ]}.

(** [json.load] on the one document above. *)
Definition load_build_only (text : string) : option json :=
  if String.eqb text build_only_text then Some build_only_manifest else None.

(** A machine without [which]: no command starts. *)
Definition nothing_runs (cmd : list string) (cwd : path) (timeout : Z) (s : fs)
  : run_outcome * fs :=
  (OtherException "[Errno 2] No such file or directory", s).

(** A machine on which [npm install] works and [npm run build] exits
    with status 1, leaving the file system as it is. *)
Definition build_exits_1 (cmd : list string) (cwd : path) (timeout : Z) (s : fs)
  : run_outcome * fs :=
  if bool_decide (cmd = ["npm"; "run"; "build"])
  then (CompletedProcess 1 EmptyString "npm error Missing script: build", s)
  else (CompletedProcess 0 "ok" EmptyString, s).

(** [/p] holds the manifest above. *)
Definition fs_build_only : fs :=
  Dir {[ "p" := Dir {[ "package.json" := File build_only_text ]} ]}.

(** [/p] is an empty directory. *)
Definition fs_empty_project : fs := Dir {[ "p" := Dir ∅ ]}.

(** [/p/dist] holds one file, and the deploy path [/d] is a regular
    file. *)
Definition fs_deploy_is_file : fs :=
  Dir {[ "p" := Dir {[ "dist" := Dir {[ "app.js" := File "x" ]} ]};
         "d" := File "old" ]}.

(** [/p/dist] holds one file, and nothing is at [/d]. *)
Definition fs_dist : fs :=
  Dir {[ "p" := Dir {[ "dist" := Dir {[ "app.js" := File "x" ]} ]} ]}.

(** [/p/dist] holds one file, and [/d] a file of an earlier deploy. *)
Definition fs_stale_deploy : fs :=
  Dir {[ "p" := Dir {[ "dist" := Dir {[ "app.js" := File "x" ]} ]};
         "d" := Dir {[ "stale.txt" := File "old" ]} ]}.

(** [/d] is a copy of [/p/dist]. *)
Definition fs_dist_staged : fs :=
  Dir {[ "p" := Dir {[ "dist" := Dir {[ "app.js" := File "x" ]} ]};
         "d" := Dir {[ "app.js" := File "x" ]} ]}.

(** The state above after the safety net of [main] has written its
    page. *)
Definition fs_dist_final : fs :=
  Dir {[ "p" := Dir {[ "dist" := Dir {[ "app.js" := File "x" ]} ]};
         "d" := Dir {[ "app.js" := File "x";
                       "index.html" := File (html_content "Deployment completed") ]} ]}.

(** [/p] is empty and [/d] holds the page of the fallback branch. *)
Definition fs_empty_project_final : fs :=
  Dir {[ "p" := Dir ∅;
         "d" := Dir {[ "index.html" :=
                         File (html_content "Project built but no output found") ]} ]}.

(** The project [/p] holds a directory named [index.html], which is
    also the deploy path. *)
Definition fs_index_is_dir : fs :=
  Dir {[ "p" := Dir {[ "index.html" := Dir {[ "old.txt" := File "old" ]};
                       "site.css" := File "css" ]} ]}.

Definition fs_index_is_dir_final : fs :=
  Dir {[ "p" := Dir {[ "index.html" :=
                         Dir {[ "site.css" := File "css";
                                "index.html" :=
                                  File (html_content "Deployment completed") ]};
                       "site.css" := File "css" ]} ]}.

(** A string between double quotes. *)
Definition quoted (s : string) : string := dq +:+ s +:+ dq.

(** [json.load] on one document. *)
Definition load_one (text0 : string) (doc : json) (text : string) : option json :=
  if String.eqb text text0 then Some doc else None.

(** The project [/p] with a manifest of the given text. *)
Definition fs_with_manifest (text : string) : fs :=
  Dir {[ "p" := Dir {[ "package.json" := File text ]} ]}.

(** A manifest with [react-scripts] and a build script. *)
Definition cra_build_text : string :=
  "{" +:+ quoted "dependencies" +:+ ": {" +:+ quoted "react-scripts" +:+ ": "
    +:+ quoted "5" +:+ "}, " +:+ quoted "scripts" +:+ ": {" +:+ quoted "build"
    +:+ ": " +:+ quoted "react-scripts build" +:+ "}}".

Definition cra_build_manifest : json :=
  JObj {[ "dependencies" := JObj {[ "react-scripts" := JStr "5" ]};
          "scripts" := JObj {[ "build" := JStr "react-scripts build" ]} ]}.

(** A manifest with [next] and a number for its scripts. *)
Definition next_odd_text : string :=
  "{" +:+ quoted "dependencies" +:+ ": {" +:+ quoted "next" +:+ ": "
    +:+ quoted "14" +:+ "}, " +:+ quoted "scripts" +:+ ": 5}".

Definition next_odd_manifest : json :=
  JObj {[ "dependencies" := JObj {[ "next" := JStr "14" ]};
          "scripts" := JInt 5 ]}.

(** A manifest whose dependencies are a string. *)
Definition string_deps_text : string :=
  "{" +:+ quoted "dependencies" +:+ ": " +:+ quoted "my-nextcloud" +:+ "}".

Definition string_deps_manifest : json :=
  JObj {[ "dependencies" := JStr "my-nextcloud" ]}.

(** A manifest with [vite] among its dependencies. *)
Definition vite_text : string :=
  "{" +:+ quoted "dependencies" +:+ ": {" +:+ quoted "vite" +:+ ": "
    +:+ quoted "1.0.0" +:+ "}}".

Definition vite_manifest : json :=
  JObj {[ "dependencies" := JObj {[ "vite" := JStr "1.0.0" ]} ]}.

(** A machine on which [npm install] runs into the timeout. *)
Definition install_times_out (cmd : list string) (cwd : path) (timeout : Z)
    (s : fs) : run_outcome * fs :=
  if bool_decide (cmd = ["npm"; "install"]) then (TimeoutExpired, s)
  else (CompletedProcess 0 "ok" EmptyString, s).

(** The static site [/p], with and without an earlier deploy at [/d]. *)
Definition fs_static_site : fs :=
  Dir {[ "p" := Dir {[ "index.html" := File "<h1>hi</h1>";
                       "site.css" := File "css" ]} ]}.

Definition fs_static_site_deployed : fs :=
  Dir {[ "p" := Dir {[ "index.html" := File "<h1>hi</h1>";
                       "site.css" := File "css" ]};
         "d" := Dir {[ "index.html" := File "<h1>hi</h1>";
                       "site.css" := File "css" ]} ]}.

(** The empty project [/p] next to an earlier deploy at [/d]. *)
Definition fs_empty_project_stale : fs :=
  Dir {[ "p" := Dir ∅; "d" := Dir {[ "stale.txt" := File "old" ]} ]}.

(** A manifest without anything. *)
Definition empty_manifest_text : string := "{}".

(** The project [/p] with [vite] in its manifest and a [dist]. *)
Definition fs_vite_dist : fs :=
  Dir {[ "p" := Dir {[ "package.json" := File vite_text;
                       "dist" := Dir {[ "app.js" := File "x" ]} ]} ]}.

Definition fs_vite_dist_final : fs :=
  Dir {[ "p" := Dir {[ "package.json" := File vite_text;
                       "dist" := Dir {[ "app.js" := File "x" ]} ]};
         "d" := Dir {[ "app.js" := File "x";
                       "index.html" :=
                         File (html_content "Deployment completed") ]} ]}.

(** The empty project next to an earlier deploy, after the fallback
    page is written. *)
Definition fs_empty_project_stale_final : fs :=
  Dir {[ "p" := Dir ∅;
         "d" := Dir {[ "stale.txt" := File "old";
                       "index.html" :=
                         File (html_content "Project built but no output found") ]} ]}.

(** The project with the [vite] manifest, after the page of the failed
    build is written to [/d]. *)
Definition fs_vite_failed_final : fs :=
  Dir {[ "p" := Dir {[ "package.json" := File vite_text ]};
         "d" := Dir {[ "index.html" :=
                         File (html_content "Build failed: npm not available") ]} ]}.

(** The project path [/p] is a regular file. *)
Definition fs_project_is_file : fs := Dir {[ "p" := File "not a directory" ]}.

Definition fs_project_is_file_final : fs :=
  Dir {[ "p" := File "not a directory";
         "d" := Dir {[ "index.html" :=
                         File (html_content "Project built but no output found") ]} ]}.

(** The build output [/p/dist] holds a directory named [index.html]. *)
Definition fs_dist_index_dir : fs :=
  Dir {[ "p" := Dir {[ "dist" := Dir {[ "index.html" := Dir ∅ ]} ]} ]}.

Definition fs_dist_index_dir_final : fs :=
  Dir {[ "p" := Dir {[ "dist" := Dir {[ "index.html" := Dir ∅ ]} ]};
         "d" := Dir {[ "index.html" := Dir ∅ ]} ]}.

(** The static site [/p] after it is staged to [/p/a/b]. *)
Definition fs_static_site_nested : fs :=
  Dir {[ "p" := Dir {[ "index.html" := File "<h1>hi</h1>";
                       "site.css" := File "css";
                       "a" := Dir {[ "b" :=
                                Dir {[ "index.html" := File "<h1>hi</h1>";
                                       "site.css" := File "css" ]} ]} ]} ]}.

(* ===================================================================== *)
(** * Facts about the file system *)
(* ===================================================================== *)

Lemma bind_Ok {A B} (f : A → result B) (r : result A) (b : B) :
  r ≫= f = Ok b ↔ ∃ a, r = Ok a ∧ f a = Ok b.
Proof.
  destruct r as [a|e]; simpl; split.
  - intros H. by exists a.
  - by intros (a' & [= <-] & H).
  - done.
  - by intros (a' & [=] & _).
Qed.

Lemma resolve_app (p q : path) (n : node) :
  resolve (p ++ q) n = resolve p n ≫= resolve q.
Proof.
  revert n. induction p as [|c p IH]; intros n; simpl; [done|].
  destruct n as [|m]; [done|].
  destruct (m !! c); simpl; auto.
Qed.

Lemma resolve_place (p : path) (t n : node) :
  resolve p (place p t n) = Some t.
Proof.
  revert n. induction p as [|c p IH]; intros n; simpl; [done|].
  rewrite lookup_insert_eq. simpl. apply IH.
Qed.

Lemma resolve_below_empty (p : path) (c : string) (q : path) (s : fs) :
  resolve p s = Some (Dir ∅) → resolve (p ++ c :: q) s = None.
Proof. intros H. rewrite resolve_app, H. simpl. by rewrite lookup_empty. Qed.

Lemma path_exists_true (p : path) (s : fs) :
  path_exists p s = true ↔ is_Some (resolve p s).
Proof.
  unfold path_exists. destruct (resolve p s) as [t|].
  - split; [by exists t | done].
  - split; [done | by intros [t [=]]].
Qed.

Lemma path_exists_false (p : path) (s : fs) :
  path_exists p s = false ↔ resolve p s = None.
Proof. unfold path_exists. by destruct (resolve p s). Qed.

Lemma write_text_Ok (p : path) (content : string) (s s' : fs) :
  write_text p content s = Ok s' → resolve p s' = Some (File content).
Proof.
  unfold write_text. intros H.
  assert (s' = place p (File content) s) as ->.
  { destruct (resolve p s) as [[|]|]; try done; [congruence|].
    destruct (resolve (removelast p) s) as [[|]|]; try done; congruence. }
  apply resolve_place.
Qed.

(** ** Copying and deleting trees *)

Lemma strip_prefix_Some (p q r : path) :
  strip_prefix p q = Some r ↔ q = p ++ r.
Proof.
  revert q. induction p as [|a p IH]; intros q; simpl.
  - split; [by intros [= ->] | by intros ->].
  - destruct q as [|b q]; [done|].
    destruct (decide (a = b)) as [->|Hne].
    + rewrite IH. split; [by intros -> | by intros [= ->]].
    + split; [done | intros [= ? ?]; congruence].
Qed.

Lemma resolve_remove (p : path) (n : node) :
  p ≠ [] → resolve p (remove p n) = None.
Proof.
  revert n. induction p as [|c p IH]; intros n Hp; [done|].
  destruct n as [content|m]; [done|]. simpl.
  destruct p as [|c2 p]; simpl.
  - by rewrite lookup_delete_eq.
  - rewrite lookup_alter_eq. destruct (m !! c) as [n'|]; [|done].
    simpl. by apply (IH n').
Qed.

Lemma blocked_remove_place (p : path) (t n : node) :
  blocked p (remove p (place p t n)) = false.
Proof.
  revert n. induction p as [|c p IH]; intros n; [done|].
  cbn [place]. set (m := match n with Dir m => m | File _ => ∅ end).
  set (d := default (Dir ∅) (m !! c)).
  destruct p as [|c2 p].
  - simpl. by rewrite lookup_delete_eq.
  - cbn [remove blocked]. rewrite lookup_alter_eq, lookup_insert_eq. simpl.
    apply IH.
Qed.

Lemma copies_into_itself_cons (a : string) (src dst : path)
    (m : gmap string node) (n : node) :
  m !! a = Some n →
  copies_into_itself (a :: src) (a :: dst) (Dir m) = copies_into_itself src dst n.
Proof.
  intros Hm. unfold copies_into_itself. simpl.
  rewrite decide_True by done.
  destruct (strip_prefix src dst) as [[|c [|c2 r]]|]; try done.
  unfold path_isdir. simpl. by rewrite Hm.
Qed.

Lemma isdir_remove_place (c c2 : string) (q : path) (t n : node) :
  path_isdir [c] (remove (c :: c2 :: q) (place (c :: c2 :: q) t n)) = true.
Proof.
  unfold path_isdir. cbn [place remove resolve].
  rewrite lookup_alter_eq, lookup_insert_eq. simpl. by destruct q.
Qed.

Lemma remove_cons (a : string) (r : path) (m : gmap string node) :
  r ≠ [] → remove (a :: r) (Dir m) = Dir (alter (remove r) a m).
Proof. by destruct r. Qed.

(** A deploy path two or more levels below the source: after the copy
    and the deletion of the deploy path, the directory of the source on
    the way to it is still there. *)
Lemma isdir_remove_place_below (src : path) (c c2 : string) (q : path)
    (t n : node) :
  path_isdir (src ++ [c])
    (remove (src ++ c :: c2 :: q) (place (src ++ c :: c2 :: q) t n)) = true.
Proof.
  revert n. induction src as [|a src IH]; intros n.
  - apply isdir_remove_place.
  - change ((a :: src) ++ c :: c2 :: q) with (a :: (src ++ c :: c2 :: q)).
    change ((a :: src) ++ [c]) with (a :: (src ++ [c])).
    cbn [place]. rewrite remove_cons by (by destruct src).
    unfold path_isdir. cbn [resolve].
    rewrite lookup_alter_eq, lookup_insert_eq.
    apply IH.
Qed.

Lemma remove_place_cons (a c2 : string) (q : path) (t : node)
    (m : gmap string node) (na : node) :
  m !! a = Some na →
  remove (a :: c2 :: q) (place (a :: c2 :: q) t (Dir m))
    = Dir (<[a := remove (c2 :: q) (place (c2 :: q) t na)]> m).
Proof.
  intros Ha.
  change (remove (a :: c2 :: q) (place (a :: c2 :: q) t (Dir m)))
    with (Dir (alter (remove (c2 :: q)) a
                 (<[a := place (c2 :: q) t (default (Dir ∅) (m !! a))]> m))).
  by rewrite alter_insert_eq, Ha.
Qed.

(** Deleting what was just placed at a free path [dst] gives back what
    is at [src], unless the copy from [src] to [dst] would run into
    itself before or after. *)
Lemma resolve_remove_place (src dst : path) (t n : node) :
  is_Some (resolve src n) →
  resolve dst n = None →
  blocked dst n = false →
  copies_into_itself src dst (remove dst (place dst t n)) = false →
  resolve src (remove dst (place dst t n)) = resolve src n.
Proof.
  revert dst n. induction src as [|a src IH]; intros dst n Hsrc Hdst Hblk Hrec.
  - destruct dst as [|c q]; [done|].
    destruct n as [content|m]; [done|].
    simpl in Hdst, Hblk.
    destruct q as [|c2 q].
    + simpl. destruct (m !! c) eqn:Hc; [done|]. simpl.
      by rewrite delete_insert_id.
    + exfalso. unfold copies_into_itself in Hrec.
      cbn [strip_prefix app] in Hrec.
      by rewrite isdir_remove_place in Hrec.
  - destruct n as [content|m]; [by destruct Hsrc|].
    destruct dst as [|b q]; [done|].
    simpl in Hsrc. destruct (m !! a) as [na|] eqn:Ha; [|by destruct Hsrc].
    simpl in Hsrc.
    destruct (decide (a = b)) as [<-|Hne].
    + simpl in Hdst, Hblk. rewrite Ha in Hdst, Hblk. simpl in Hdst.
      destruct q as [|c2 q]; [done|].
      rewrite (remove_place_cons a c2 q t m na Ha) in Hrec |- *.
      rewrite (copies_into_itself_cons a src (c2 :: q) _
                 (remove (c2 :: q) (place (c2 :: q) t na))) in Hrec
        by (by rewrite lookup_insert_eq).
      cbn [resolve]. rewrite lookup_insert_eq, Ha.
      change (resolve src (remove (c2 :: q) (place (c2 :: q) t na))
              = resolve src na).
      by apply IH.
    + cbn [place remove resolve]. rewrite Ha. simpl.
      destruct q as [|c2 q].
      * by rewrite lookup_delete_ne, lookup_insert_ne, Ha by done.
      * by rewrite lookup_alter_ne, lookup_insert_ne, Ha by done.
Qed.

Section WorkerFacts.

Variable subprocess_run : list string → path → Z → fs → run_outcome * fs.
Variable json_load : string → option json.
Variable getcwd : path.

Lemma create_fallback_page_Ok (deploy_path : path) (message : string) (s s' : fs) :
  create_fallback_page deploy_path message s = Ok s' →
  resolve (path_join deploy_path "index.html") s'
    = Some (File (html_content message)).
Proof.
  unfold create_fallback_page. intros (s1 & _ & H)%bind_Ok.
  by apply write_text_Ok in H.
Qed.

Lemma ensure_index_Ok (deploy_path : path) (s s' : fs) :
  ensure_index deploy_path s = Ok s' →
  path_exists (path_join deploy_path "index.html") s' = true.
Proof.
  unfold ensure_index.
  destruct (path_exists (path_join deploy_path "index.html") s) eqn:E; simpl.
  - by intros [= <-].
  - intros H%create_fallback_page_Ok. apply path_exists_true. eauto.
Qed.

Lemma pipeline_Ok (project_path deploy_path : path) (s s' : fs) :
  pipeline subprocess_run json_load project_path deploy_path s = Ok s' ↔
  ∃ build_success build_message build_output s1 s2,
    build_phase subprocess_run json_load project_path s
      = Ok (build_success, build_message, build_output, s1) ∧
    stage build_output project_path deploy_path build_success build_message s1
      = Ok s2 ∧
    ensure_index deploy_path s2 = Ok s'.
Proof.
  unfold pipeline. rewrite bind_Ok. split.
  - intros ([[[bs bm] out] s1] & Hb & (s2 & Hs & He)%bind_Ok).
    by exists bs, bm, out, s1, s2.
  - intros (bs & bm & out & s1 & s2 & Hb & Hs & He).
    exists (bs, bm, out, s1). split; [done|]. apply bind_Ok. eauto.
Qed.

(** Classification from a parsed manifest never gives [node]. *)
Lemma classify_manifest_not_node (pkg : json) :
  classify_manifest pkg ≠ Some node_type.
Proof.
  unfold classify_manifest.
  destruct (py_get pkg "scripts") as [scripts|]; simpl; [|done].
  destruct (py_get pkg "dependencies") as [deps|]; simpl; [|done].
  destruct (py_in "next" deps) as [[|]|]; simpl; try done.
  destruct (py_in "vite" deps) as [[|]|]; simpl; try done.
  destruct (py_in "build" scripts) as [[|]|]; simpl; try done.
  by destruct (py_in "react-scripts" deps) as [[|]|].
Qed.

(** C9. Classification never returns the tag [node]: a [build] script
    already selects [vite], so the result is always one of [nextjs],
    [vite], [cra], [static], [unknown]. *)
Theorem detect_project_type_never_node (project_path : path) (s : fs) :
  detect_project_type json_load project_path s ≠ node_type ∧
  tag (detect_project_type json_load project_path s) ≠ "node" ∧
  detect_project_type json_load project_path s
    ∈ [nextjs; vite; cra; static; unknown].
Proof.
  assert (detect_project_type json_load project_path s ≠ node_type) as Hne.
  { unfold detect_project_type.
    destruct (path_exists (path_join project_path "package.json") s).
    - destruct (read_text _ s) as [text|e].
      + destruct (json_load text) as [pkg|]; simpl.
        * pose proof (classify_manifest_not_node pkg) as Hc.
          destruct (classify_manifest pkg) as [t|]; [congruence|].
          by destruct (path_exists _ s).
        * by destruct (path_exists _ s).
      + by destruct (path_exists _ s).
    - by destruct (path_exists _ s). }
  split; [done|].
  destruct (detect_project_type json_load project_path s);
    try done; (split; [done|]); set_solver.
Qed.

(** C3 (as the code behaves). A manifest whose [scripts] mapping has
    the key [build] and whose [dependencies] mapping has none of [next],
    [vite], [react-scripts] is classified [vite], not [node]: the test
    for a build script of the [vite] branch comes first. *)
Theorem build_script_alone_is_vite (project_path : path) (s : fs)
    (text : string) (pkg : json) (scripts deps : gmap string json) :
  read_text (path_join project_path "package.json") s = Ok text →
  json_load text = Some pkg →
  py_get pkg "scripts" = Some (JObj scripts) →
  py_get pkg "dependencies" = Some (JObj deps) →
  is_Some (scripts !! "build") →
  deps !! "next" = None → deps !! "vite" = None →
  deps !! "react-scripts" = None →
  detect_project_type json_load project_path s = vite ∧
  tag (detect_project_type json_load project_path s) ≠ "node".
Proof.
  intros Hread Hload Hs Hd Hb Hn Hv Hr.
  assert (detect_project_type json_load project_path s = vite) as ->; [|done].
  unfold detect_project_type.
  assert (path_exists (path_join project_path "package.json") s = true) as ->.
  { unfold read_text in Hread. apply path_exists_true.
    destruct (resolve _ s); [eauto | done]. }
  rewrite Hread, Hload. simpl. unfold classify_manifest.
  rewrite Hs, Hd. simpl. rewrite Hn, Hv. simpl.
  by rewrite bool_decide_eq_true_2.
Qed.

(** C6. [run_command] is total, so nothing is raised to its caller:
    when the call times out (after the 600 seconds it passes) it
    returns [False], the empty string and the fixed message; on any
    other failure [False], the empty string and the description of the
    failure; otherwise the success flag is true exactly when the exit
    code is zero, next to the captured output. *)
Theorem run_command_never_raises (cmd : list string) (cwd : path) (s : fs) :
  (run_command subprocess_run cmd cwd s).2 = (subprocess_run cmd cwd 600 s).2 ∧
  match (subprocess_run cmd cwd 600 s).1 with
  | TimeoutExpired =>
      (run_command subprocess_run cmd cwd s).1
        = (false, EmptyString, "Build timed out after 10 minutes")
  | OtherException description =>
      (run_command subprocess_run cmd cwd s).1
        = (false, EmptyString, description)
  | CompletedProcess returncode stdout stderr =>
      (run_command subprocess_run cmd cwd s).1.2 = stderr ∧
      (run_command subprocess_run cmd cwd s).1.1.2 = stdout ∧
      ((run_command subprocess_run cmd cwd s).1.1.1 = true ↔ returncode = 0)
  end.
Proof.
  unfold run_command.
  destruct (subprocess_run cmd cwd 600 s) as [[rc out err| |d] s']; simpl;
    try done.
  repeat split; try done.
  - apply bool_decide_eq_true_1.
  - apply bool_decide_eq_true_2.
Qed.

(** C5. When the probe for [npm] and [npm install] succeed and
    [npm run build] fails, [build_node_project] reports success with
    the message "No build script found, serving source files". *)
Theorem failed_build_is_soft (project_path : path) (s s1 s2 s3 : fs)
    (out1 err1 out2 err2 out3 err3 : string) :
  run_command subprocess_run ["which"; "npm"] project_path s
    = ((true, out1, err1), s1) →
  run_command subprocess_run ["npm"; "install"] project_path s1
    = ((true, out2, err2), s2) →
  run_command subprocess_run ["npm"; "run"; "build"] project_path s2
    = ((false, out3, err3), s3) →
  build_node_project subprocess_run project_path s
    = ((true, "No build script found, serving source files"), s3).
Proof.
  intros H1 H2 H3. unfold build_node_project.
  rewrite H1. simpl. rewrite H2. simpl. by rewrite H3.
Qed.

(** ** The search for the build output *)

Lemma nonempty_dir_dec (p : path) (s : fs) :
  nonempty_dir p s ∨ ¬ nonempty_dir p s.
Proof.
  unfold nonempty_dir. destruct (resolve p s) as [[content|m]|].
  - right. by intros (m & [=] & _).
  - destruct (decide (map_to_list m = [])) as [He|Hne].
    + right. intros (m' & [= <-] & Hm). by apply Hm, map_to_list_empty_iff.
    + left. exists m. split; [done|]. by rewrite <- map_to_list_empty_iff.
  - right. by intros (m & [=] & _).
Qed.

Lemma find_among_hit (c : string) (rest : list string) (project_path : path)
    (s : fs) :
  nonempty_dir (path_join project_path c) s →
  find_among (c :: rest) project_path s = Ok (Some (path_join project_path c)).
Proof.
  intros (m & Hm & Hne). simpl.
  unfold path_exists, path_isdir, listdir. rewrite Hm. simpl.
  destruct (map_to_list m) as [|kv l] eqn:E; [|done].
  by apply map_to_list_empty_iff in E.
Qed.

Lemma find_among_miss (c : string) (rest : list string) (project_path : path)
    (s : fs) :
  ¬ nonempty_dir (path_join project_path c) s →
  find_among (c :: rest) project_path s = find_among rest project_path s.
Proof.
  intros Hno. simpl. unfold path_exists, path_isdir, listdir.
  destruct (resolve (path_join project_path c) s) as [[content|m]|] eqn:E;
    simpl; try done.
  destruct (map_to_list m) as [|kv l] eqn:El; [done|].
  exfalso. apply Hno. exists m. split; [done|].
  rewrite <- map_to_list_empty_iff. by rewrite El.
Qed.

Lemma find_among_first (cs : list string) (project_path : path) (s : fs)
    (i : nat) (c : string) :
  cs !! i = Some c →
  nonempty_dir (path_join project_path c) s →
  (∀ j c', (j < i)%nat → cs !! j = Some c' →
           ¬ nonempty_dir (path_join project_path c') s) →
  find_among cs project_path s = Ok (Some (path_join project_path c)).
Proof.
  revert i. induction cs as [|c0 cs IH]; intros i Hi Hc Hbefore; [done|].
  destruct i as [|i]; simpl in Hi.
  - injection Hi as ->. by apply find_among_hit.
  - rewrite find_among_miss by (apply (Hbefore 0%nat); [lia|done]).
    apply (IH i); [done..|].
    intros j c' Hj Hc'. apply (Hbefore (S j)); [lia|done].
Qed.

Lemma find_among_none (cs : list string) (project_path : path) (s : fs) :
  (∀ c, c ∈ cs → ¬ nonempty_dir (path_join project_path c) s) →
  find_among cs project_path s = Ok None.
Proof.
  induction cs as [|c0 cs IH]; intros Hall; [done|].
  rewrite find_among_miss by (apply Hall; set_solver).
  apply IH. intros c Hc. apply Hall. set_solver.
Qed.

(** Either some candidate is the first one to hold a non-empty
    directory, or none does. *)
Lemma first_or_none (cs : list string) (project_path : path) (s : fs) :
  (∃ i c, cs !! i = Some c ∧ nonempty_dir (path_join project_path c) s ∧
          ∀ j c', (j < i)%nat → cs !! j = Some c' →
                  ¬ nonempty_dir (path_join project_path c') s) ∨
  (∀ c, c ∈ cs → ¬ nonempty_dir (path_join project_path c) s).
Proof.
  induction cs as [|c0 cs IH].
  - right. intros c Hc. set_solver.
  - destruct (nonempty_dir_dec (path_join project_path c0) s) as [Hy|Hn].
    + left. exists 0%nat, c0. repeat split; [done|]. intros j c' Hj. lia.
    + destruct IH as [(i & c & Hi & Hc & Hbefore)|Hall].
      * left. exists (S i), c. repeat split; [done..|].
        intros [|j] c' Hj Hc'; simpl in Hc'.
        -- by injection Hc' as <-.
        -- apply (Hbefore j); [lia|done].
      * right. intros c [->|Hc]%elem_of_cons; [done|by apply Hall].
Qed.

(** C4. [find_build_output] returns the first of [dist], [build],
    [out], [.next/standalone], [.next/out], [public], [_site], in that
    order, at which the project holds a directory with at least one
    entry, and [None] when there is none; [dist] wins over [build] when
    both qualify, and an empty [dist] is passed over. *)
Theorem find_build_output_first_candidate (project_path : path) (s : fs) :
  map (path_join project_path) candidates
    = [project_path ++ ["dist"]; project_path ++ ["build"];
       project_path ++ ["out"]; project_path ++ [".next"; "standalone"];
       project_path ++ [".next"; "out"]; project_path ++ ["public"];
       project_path ++ ["_site"]] ∧
  (∀ full, find_build_output project_path s = Ok (Some full) ↔
     ∃ i c, candidates !! i = Some c ∧ full = path_join project_path c ∧
            nonempty_dir full s ∧
            ∀ j c', (j < i)%nat → candidates !! j = Some c' →
                    ¬ nonempty_dir (path_join project_path c') s) ∧
  (find_build_output project_path s = Ok None ↔
     ∀ c, c ∈ candidates → ¬ nonempty_dir (path_join project_path c) s) ∧
  (∃ found, find_build_output project_path s = Ok found) ∧
  (nonempty_dir (project_path ++ ["dist"]) s →
   nonempty_dir (project_path ++ ["build"]) s →
   find_build_output project_path s = Ok (Some (project_path ++ ["dist"]))) ∧
  (resolve (project_path ++ ["dist"]) s = Some (Dir ∅) →
   nonempty_dir (project_path ++ ["build"]) s →
   find_build_output project_path s = Ok (Some (project_path ++ ["build"]))).
Proof.
  unfold find_build_output.
  pose proof (first_or_none candidates project_path s) as Hcases.
  split; [done|]. split; [|split; [|split; [|split]]].
  - intros full. split.
    + intros Hfind.
      destruct Hcases as [(i & c & Hi & Hc & Hbefore)|Hall].
      * rewrite (find_among_first _ _ _ i c) in Hfind by done.
        injection Hfind as <-. by exists i, c.
      * by rewrite find_among_none in Hfind.
    + intros (i & c & Hi & -> & Hc & Hbefore).
      by apply (find_among_first _ _ _ i c).
  - split.
    + intros Hfind c Hc.
      destruct Hcases as [(i & c1 & Hi & Hc1 & Hbefore)|Hall]; [|by apply Hall].
      by rewrite (find_among_first _ _ _ i c1) in Hfind.
    + apply find_among_none.
  - destruct Hcases as [(i & c & Hi & Hc & Hbefore)|Hall].
    + eexists. by apply (find_among_first _ _ _ i c).
    + eexists. by apply find_among_none.
  - intros Hdist _. by apply (find_among_hit "dist").
  - intros Hdist Hbuild.
    apply (find_among_first candidates _ _ 1%nat "build"); [done..|].
    intros [|j] c' Hj Hc'; [|lia]. injection Hc' as <-.
    intros (m & Hm & Hne). unfold path_join in Hm. simpl in Hm.
    rewrite Hdist in Hm. by injection Hm as <-.
Qed.

(** ** Staging *)

Lemma copytree_Ok (src dst : path) (s s' : fs) :
  copytree src dst s = Ok s' ↔
  ∃ m, resolve src s = Some (Dir m) ∧ resolve dst s = None ∧
       blocked dst s = false ∧ copies_into_itself src dst s = false ∧
       s' = place dst (Dir m) s.
Proof.
  unfold copytree. split.
  - destruct (resolve src s) as [[content|m]|]; try done.
    destruct (resolve dst s); [done|].
    destruct (blocked dst s); [done|].
    destruct (copies_into_itself src dst s); [done|].
    intros [= <-]. by exists m.
  - intros (m & -> & -> & -> & -> & ->). done.
Qed.

Lemma copy_to_deploy_Ok (source deploy_path : path) (s s' : fs) :
  copy_to_deploy source deploy_path s = Ok s' →
  ∃ cleaned m,
    (if path_exists deploy_path s then rmtree deploy_path s else Ok s)
      = Ok cleaned ∧
    resolve source cleaned = Some (Dir m) ∧
    resolve deploy_path cleaned = None ∧
    blocked deploy_path cleaned = false ∧
    s' = place deploy_path (Dir m) cleaned ∧
    resolve deploy_path s' = Some (Dir m).
Proof.
  unfold copy_to_deploy. intros (cleaned & Hc & Hcopy)%bind_Ok.
  apply copytree_Ok in Hcopy as (m & Hsrc & Hdst & Hblk & _ & ->).
  exists cleaned, m. repeat split; try done. apply resolve_place.
Qed.

(** Staging again right after a copy: the target is deleted and the
    same tree is copied. *)
Lemma copy_to_deploy_again (source deploy_path : path) (cleaned : fs)
    (m : gmap string node) :
  resolve source cleaned = Some (Dir m) →
  resolve deploy_path cleaned = None →
  blocked deploy_path cleaned = false →
  copies_into_itself source deploy_path
    (remove deploy_path (place deploy_path (Dir m) cleaned)) = false →
  copy_to_deploy source deploy_path (place deploy_path (Dir m) cleaned)
    = Ok (place deploy_path (Dir m)
            (remove deploy_path (place deploy_path (Dir m) cleaned))).
Proof.
  intros Hsrc Hdst Hblk Hrec. unfold copy_to_deploy, path_exists, rmtree.
  rewrite resolve_place.
  destruct deploy_path as [|c q] eqn:Hd; [done|]. rewrite <- Hd in *.
  assert (deploy_path ≠ []) as Hne by (by rewrite Hd).
  simpl. apply copytree_Ok. exists m.
  rewrite resolve_remove_place, resolve_remove, blocked_remove_place
    by (rewrite ?Hsrc; eauto).
  done.
Qed.

(** C7 (as the code behaves). Staging is idempotent whenever the second
    run returns. When [copy_to_deploy] has run, a second run on the same
    source and deploy path that returns leaves the deploy directory with
    the contents the first run gave it: each run deletes the target and
    copies the whole source tree, so the deploy directory is that tree
    and nothing else. The second run returns exactly when the deploy
    path does not lie two or more levels below the source; there the
    first run leaves a directory inside the source, on the way to the
    deploy path, and the second copy runs into it and raises. *)
Theorem staging_is_idempotent (source deploy_path : path) (s s1 : fs) :
  copy_to_deploy source deploy_path s = Ok s1 →
  (∀ s2, copy_to_deploy source deploy_path s1 = Ok s2 →
         resolve deploy_path s2 = resolve deploy_path s1) ∧
  ((∃ s2, copy_to_deploy source deploy_path s1 = Ok s2) ↔
   ∀ c c2 q, deploy_path ≠ source ++ c :: c2 :: q) ∧
  (∃ cleaned m,
     (if path_exists deploy_path s then rmtree deploy_path s else Ok s)
       = Ok cleaned ∧
     resolve source cleaned = Some (Dir m) ∧
     resolve deploy_path s1 = Some (Dir m)).
Proof.
  intros (cleaned & m & Hc & Hsrc & Hdst & Hblk & -> & Hres)%copy_to_deploy_Ok.
  assert (∀ s2, copy_to_deploy source deploy_path
                  (place deploy_path (Dir m) cleaned) = Ok s2 →
            copies_into_itself source deploy_path
              (remove deploy_path (place deploy_path (Dir m) cleaned)) = false)
    as Hreturns.
  { intros s2 H2. unfold copy_to_deploy, path_exists, rmtree in H2.
    rewrite resolve_place in H2.
    destruct deploy_path as [|c q] eqn:Hd; [done|]. rewrite <- Hd in *.
    simpl in H2. by apply copytree_Ok in H2 as (m2 & _ & _ & _ & Hrec & _). }
  split; [|split].
  - intros s2 H2. pose proof (Hreturns s2 H2) as Hrec.
    rewrite copy_to_deploy_again in H2 by done.
    injection H2 as <-. by rewrite !resolve_place.
  - split.
    + intros [s2 H2] c c2 q ->. apply Hreturns in H2.
      unfold copies_into_itself in H2.
      rewrite (proj2 (strip_prefix_Some _ _ (c :: c2 :: q))) in H2 by done.
      by rewrite isdir_remove_place_below in H2.
    + intros Hnot. eexists. apply copy_to_deploy_again; try done.
      unfold copies_into_itself.
      destruct (strip_prefix source deploy_path) as [[|c [|c2 q]]|] eqn:Hsp;
        try done.
      apply strip_prefix_Some in Hsp. by destruct (Hnot c c2 q).
  - by exists cleaned, m.
Qed.

(** ** The fallback page and the safety net *)

Lemma resolve_index (deploy_path : path) (m : gmap string node) (s : fs) :
  resolve deploy_path s = Some (Dir m) →
  resolve (path_join deploy_path "index.html") s = m !! "index.html".
Proof.
  intros H. unfold path_join. simpl. rewrite resolve_app, H. simpl.
  by destruct (m !! "index.html").
Qed.

(** The page of the fallback branch survives the final check. *)
Lemma fallback_page_kept (project_path deploy_path : path)
    (build_success : bool) (build_message : string) (s1 s2 s3 : fs) :
  stage None project_path deploy_path build_success build_message s1 = Ok s2 →
  ensure_index deploy_path s2 = Ok s3 →
  path_exists (path_join project_path "index.html") s1 = false →
  s3 = s2 ∧
  resolve (path_join deploy_path "index.html") s3
    = Some (File (html_content
              (if build_success then "Project built but no output found"
               else "Build failed: " +:+ build_message))).
Proof.
  intros Hstage Hensure Hnoindex. simpl in Hstage. rewrite Hnoindex in Hstage.
  assert (resolve (path_join deploy_path "index.html") s2
          = Some (File (html_content
              (if build_success then "Project built but no output found"
               else "Build failed: " +:+ build_message)))) as Hpage.
  { destruct build_success; by apply create_fallback_page_Ok in Hstage. }
  unfold ensure_index, path_exists in Hensure. rewrite Hpage in Hensure.
  simpl in Hensure. injection Hensure as <-. done.
Qed.

(** C10. When the branch of [main] for a project without output and
    without [index.html] has run, the final check finds the page it
    wrote and leaves it as it is. So the final check writes its page
    "Deployment completed" only after a copy, of the output directory
    or of the project root, and the tree copied had no [index.html] at
    its top. *)
Theorem safety_net_only_after_copy (build_output : option path)
    (project_path deploy_path : path) (build_success : bool)
    (build_message : string) (s1 s2 s3 : fs) :
  stage build_output project_path deploy_path build_success build_message s1
    = Ok s2 →
  ensure_index deploy_path s2 = Ok s3 →
  (build_output = None →
   path_exists (path_join project_path "index.html") s1 = false →
   s3 = s2 ∧
   resolve (path_join deploy_path "index.html") s3
     = Some (File (html_content
               (if build_success then "Project built but no output found"
                else "Build failed: " +:+ build_message)))) ∧
  (path_exists (path_join deploy_path "index.html") s2 = false →
   resolve (path_join deploy_path "index.html") s3
     = Some (File (html_content "Deployment completed")) ∧
   ∃ source cleaned m,
     (build_output = Some source ∨
      build_output = None ∧ source = project_path ∧
      path_exists (path_join project_path "index.html") s1 = true) ∧
     (if path_exists deploy_path s1 then rmtree deploy_path s1 else Ok s1)
       = Ok cleaned ∧
     resolve source cleaned = Some (Dir m) ∧
     m !! "index.html" = None ∧
     resolve deploy_path s2 = Some (Dir m)).
Proof.
  intros Hstage Hensure. split.
  - intros -> Hnoindex. by apply (fallback_page_kept project_path _ _ _ s1).
  - intros Hmissing. split.
    + unfold ensure_index in Hensure. rewrite Hmissing in Hensure.
      simpl in Hensure. by apply create_fallback_page_Ok in Hensure.
    + assert (∀ source, copy_to_deploy source deploy_path s1 = Ok s2 →
                ∃ cleaned m,
                  (if path_exists deploy_path s1 then rmtree deploy_path s1
                   else Ok s1) = Ok cleaned ∧
                  resolve source cleaned = Some (Dir m) ∧
                  m !! "index.html" = None ∧
                  resolve deploy_path s2 = Some (Dir m)) as Hcopy.
      { intros source (cleaned & m & Hc & Hsrc & _ & _ & _ & Hres)%copy_to_deploy_Ok.
        exists cleaned, m. repeat split; try done.
        apply path_exists_false in Hmissing.
        by rewrite (resolve_index _ m) in Hmissing. }
      destruct build_output as [out|]; simpl in Hstage.
      * destruct (Hcopy out Hstage) as (cleaned & m & ?).
        exists out, cleaned, m. split; [by left | done].
      * destruct (path_exists (path_join project_path "index.html") s1) eqn:Hi.
        -- destruct (Hcopy project_path Hstage) as (cleaned & m & ?).
           exists project_path, cleaned, m. split; [by right | done].
        -- exfalso. apply path_exists_false in Hmissing.
           destruct build_success;
             apply create_fallback_page_Ok in Hstage; congruence.
Qed.

(** ** The empty project *)

Lemma split_slash_nonempty (rel : string) : split_slash rel ≠ [].
Proof.
  destruct rel as [|c rel]; simpl; [done|].
  destruct (Ascii.eqb c "/"); [done|]. by destruct (split_slash rel).
Qed.

Lemma empty_project_lookup (project_path : path) (rel : string) (s : fs) :
  resolve project_path s = Some (Dir ∅) →
  resolve (path_join project_path rel) s = None.
Proof.
  intros H. unfold path_join.
  destruct (split_slash rel) as [|w ws] eqn:E.
  - by apply split_slash_nonempty in E.
  - by apply resolve_below_empty.
Qed.

Lemma build_phase_empty_project (project_path : path) (s : fs) :
  resolve project_path s = Some (Dir ∅) →
  build_phase subprocess_run json_load project_path s
    = Ok (true, EmptyString, None, s).
Proof.
  intros H. unfold build_phase, detect_project_type, path_exists.
  rewrite !empty_project_lookup by done.
  assert (bool_decide (unknown ∈ [nextjs; vite; cra; node_type]) = false)
    as -> by reflexivity.
  unfold find_build_output. rewrite find_among_none; [done|].
  intros c _ (m & Hm & _). by rewrite empty_project_lookup in Hm.
Qed.

(** C2 (as the code behaves). For an empty project directory, a run of
    [main] that runs to its end leaves in the deploy directory the
    fallback page with the message "Project built but no output
    found": the branch for a project without output writes it, and the
    final check then has nothing to do. *)
Theorem empty_project_fallback_page (prog arg1 arg2 : string) (s s' : fs) :
  resolve (abspath getcwd arg1) s = Some (Dir ∅) →
  main subprocess_run json_load getcwd [prog; arg1; arg2] s = Returned s' →
  resolve (path_join (abspath getcwd arg2) "index.html") s'
    = Some (File (html_content "Project built but no output found")).
Proof.
  intros Hempty. unfold main, path_exists. rewrite Hempty. simpl.
  destruct (pipeline _ _ _ _ s) as [s3|e] eqn:Hp; [|done]. intros [= ->].
  apply pipeline_Ok in Hp as (bs & bm & out & s1 & s2 & Hb & Hs & He).
  rewrite build_phase_empty_project in Hb by done.
  injection Hb as <- <- <- <-.
  apply (fallback_page_kept _ _ true EmptyString s s2 s' Hs He).
  apply path_exists_false. by apply empty_project_lookup.
Qed.

(** ** The exit status *)

(** C8 (as the code behaves). [main] calls [sys.exit(1)] exactly when
    the argument count is wrong or the project path does not exist.
    Every other run either reaches the end of [main], and the process
    exits with status 0, also when the build step failed, or is ended
    by an exception of a file-system operation of staging, which [main]
    does not catch, and the process exits with status 1. *)
Theorem exit_status_of_main (argv : list string) (s : fs) :
  (main subprocess_run json_load getcwd argv s = SysExit 1 ↔
   fatal_arguments getcwd argv s) ∧
  (fatal_arguments getcwd argv s →
   exit_status (main subprocess_run json_load getcwd argv s) = 1) ∧
  (∀ prog arg1 arg2,
     argv = [prog; arg1; arg2] →
     path_exists (abspath getcwd arg1) s = true →
     match pipeline subprocess_run json_load
             (abspath getcwd arg1) (abspath getcwd arg2) s with
     | Ok s' =>
         main subprocess_run json_load getcwd argv s = Returned s' ∧
         exit_status (main subprocess_run json_load getcwd argv s) = 0
     | Raise e =>
         main subprocess_run json_load getcwd argv s = Uncaught e ∧
         exit_status (main subprocess_run json_load getcwd argv s) = 1
     end) ∧
  (∀ prog arg1 arg2 build_message build_output s1 s2 s',
     argv = [prog; arg1; arg2] →
     path_exists (abspath getcwd arg1) s = true →
     build_phase subprocess_run json_load (abspath getcwd arg1) s
       = Ok (false, build_message, build_output, s1) →
     stage build_output (abspath getcwd arg1) (abspath getcwd arg2)
       false build_message s1 = Ok s2 →
     ensure_index (abspath getcwd arg2) s2 = Ok s' →
     exit_status (main subprocess_run json_load getcwd argv s) = 0).
Proof.
  assert (main subprocess_run json_load getcwd argv s = SysExit 1 ↔
          fatal_arguments getcwd argv s) as Hfatal.
  { unfold fatal_arguments.
    destruct argv as [|prog [|arg1 [|arg2 [|extra argv]]]]; simpl;
      try (split; [intros _; left; done | done]).
    destruct (path_exists (abspath getcwd arg1) s) eqn:Hex; simpl.
    - split.
      + by destruct (pipeline _ _ _ _ s).
      + intros [Hlen|(p0 & a1 & a2 & [= <- <- <-] & Hno)]; [done|congruence].
    - split; [|done]. intros _. right. by exists prog, arg1, arg2. }
  split; [done|]. split; [|split].
  - intros Hf. apply Hfatal in Hf. by rewrite Hf.
  - intros prog arg1 arg2 -> Hex. simpl. rewrite Hex. simpl.
    by destruct (pipeline _ _ _ _ s).
  - intros prog arg1 arg2 bm out s1 s2 s' -> Hex Hb Hs He.
    simpl. rewrite Hex. simpl.
    assert (pipeline subprocess_run json_load (abspath getcwd arg1)
              (abspath getcwd arg2) s = Ok s') as ->; [|done].
    apply pipeline_Ok. by exists false, bm, out, s1, s2.
Qed.

(** ** The entry [index.html] of the deploy directory *)

(** C1 (as the code behaves). Every run of [main] with two arguments and
    an existing project path that runs to its end leaves an entry
    [index.html] in the deploy directory, whatever the project type, the
    outcome of the build and the outcome of the search for its output.
    The entry is a regular file, unless the build output or the project
    root was copied and the tree copied has a directory named
    [index.html] at its top: the final check asks [os.path.exists], which
    that directory answers. *)
Theorem main_leaves_index_html (prog arg1 arg2 : string) (s s' : fs) :
  path_exists (abspath getcwd arg1) s = true →
  main subprocess_run json_load getcwd [prog; arg1; arg2] s = Returned s' →
  path_exists (path_join (abspath getcwd arg2) "index.html") s' = true ∧
  ((∃ content,
      resolve (path_join (abspath getcwd arg2) "index.html") s'
        = Some (File content)) ∨
   (∃ build_success build_message build_output s1 source cleaned m mi,
      build_phase subprocess_run json_load (abspath getcwd arg1) s
        = Ok (build_success, build_message, build_output, s1) ∧
      (build_output = Some source ∨
       build_output = None ∧ source = abspath getcwd arg1) ∧
      (if path_exists (abspath getcwd arg2) s1
       then rmtree (abspath getcwd arg2) s1 else Ok s1) = Ok cleaned ∧
      resolve source cleaned = Some (Dir m) ∧
      m !! "index.html" = Some (Dir mi) ∧
      resolve (path_join (abspath getcwd arg2) "index.html") s'
        = Some (Dir mi))).
Proof.
  intros Hex Hmain. unfold main in Hmain. rewrite Hex in Hmain.
  simpl in Hmain.
  destruct (pipeline _ _ _ _ s) as [s3|e] eqn:Hp; [|done].
  injection Hmain as ->.
  apply pipeline_Ok in Hp as (bs & bm & out & s1 & s2 & Hb & Hs & He).
  split; [by apply ensure_index_Ok in He|].
  set (deploy_path := abspath getcwd arg2) in *.
  set (project_path := abspath getcwd arg1) in *.
  unfold ensure_index in He.
  destruct (path_exists (path_join deploy_path "index.html") s2) eqn:Hidx;
    simpl in He.
  2: { left. apply create_fallback_page_Ok in He. eauto. }
  injection He as <-.
  assert (∀ source, copy_to_deploy source deploy_path s1 = Ok s2 →
            (∃ content, resolve (path_join deploy_path "index.html") s2
                          = Some (File content)) ∨
            ∃ cleaned m mi,
              (if path_exists deploy_path s1 then rmtree deploy_path s1
               else Ok s1) = Ok cleaned ∧
              resolve source cleaned = Some (Dir m) ∧
              m !! "index.html" = Some (Dir mi) ∧
              resolve (path_join deploy_path "index.html") s2
                = Some (Dir mi)) as Hcopy.
  { intros source (cleaned & m & Hc & Hsrc & _ & _ & _ & Hres)%copy_to_deploy_Ok.
    rewrite (resolve_index _ m) by done.
    unfold path_exists in Hidx. rewrite (resolve_index _ m) in Hidx by done.
    destruct (m !! "index.html") as [[content|mi]|] eqn:Hi; [eauto| |done].
    right. by exists cleaned, m, mi. }
  destruct out as [out|]; simpl in Hs.
  - destruct (Hcopy out Hs) as [?|(cleaned & m & mi & ? & ? & ? & ?)];
      [by left|].
    right. exists bs, bm, (Some out), s1, out, cleaned, m, mi.
    repeat split; eauto.
  - destruct (path_exists (path_join project_path "index.html") s1).
    + destruct (Hcopy project_path Hs)
        as [?|(cleaned & m & mi & ? & ? & ? & ?)]; [by left|].
      right. exists bs, bm, None, s1, project_path, cleaned, m, mi.
      repeat split; eauto.
    + left. destruct bs; apply create_fallback_page_Ok in Hs; eauto.
Qed.

End WorkerFacts.

(* ===================================================================== *)
(** * Runs on the sample inputs *)
(* ===================================================================== *)

(** C1 at a project whose [dist] has no [index.html]: the final check
    adds the page. *)
Lemma main_leaves_index_html_witness :
  path_exists (abspath [] "/p") fs_dist = true ∧
  main nothing_runs load_build_only [] ["worker.py"; "/p"; "/d"] fs_dist
    = Returned fs_dist_final ∧
  path_exists (path_join (abspath [] "/d") "index.html") fs_dist_final = true.
Proof.
  assert (main nothing_runs load_build_only [] ["worker.py"; "/p"; "/d"] fs_dist
          = Returned fs_dist_final) as Hrun by (vm_compute; reflexivity).
  split; [reflexivity|]. split; [exact Hrun|].
  refine (proj1 (main_leaves_index_html nothing_runs load_build_only []
                   "worker.py" "/p" "/d" fs_dist fs_dist_final _ Hrun)).
  reflexivity.
Defined.

(** C1 as the specification states it fails when the build output holds
    a directory named [index.html]: the run completes, and the entry
    [index.html] of the deploy directory is that directory, not a
    file. *)
Lemma completed_run_leaves_index_directory :
  path_exists (abspath [] "/p") fs_dist_index_dir = true ∧
  main nothing_runs load_build_only [] ["worker.py"; "/p"; "/d"]
    fs_dist_index_dir = Returned fs_dist_index_dir_final ∧
  resolve (path_join (abspath [] "/d") "index.html") fs_dist_index_dir_final
    = Some (Dir ∅) ∧
  ∀ content,
    resolve (path_join (abspath [] "/d") "index.html") fs_dist_index_dir_final
      ≠ Some (File content).
Proof.
  split; [reflexivity|]. split; [vm_compute; reflexivity|].
  split; [reflexivity|]. intros content. vm_compute. discriminate.
Qed.

(** C2 as the specification states it fails on the empty project [/p]:
    the page left in [/d] carries "Project built but no output found",
    not "Deployment completed". *)
Lemma empty_project_page_is_not_deployment_completed :
  resolve ["p"] fs_empty_project = Some (Dir ∅) ∧
  main nothing_runs load_build_only [] ["worker.py"; "/p"; "/d"] fs_empty_project
    = Returned fs_empty_project_final ∧
  resolve ["d"; "index.html"] fs_empty_project_final
    = Some (File (html_content "Project built but no output found")) ∧
  resolve ["d"; "index.html"] fs_empty_project_final
    ≠ Some (File (html_content "Deployment completed")).
Proof.
  split; [reflexivity|]. split; [vm_compute; reflexivity|].
  split; [reflexivity|]. vm_compute. discriminate.
Qed.

Lemma empty_project_fallback_page_witness :
  resolve (abspath [] "/p") fs_empty_project = Some (Dir ∅) ∧
  resolve (path_join (abspath [] "/d") "index.html") fs_empty_project_final
    = Some (File (html_content "Project built but no output found")).
Proof.
  split; [reflexivity|].
  apply (empty_project_fallback_page nothing_runs load_build_only []
           "worker.py" "/p" "/d" fs_empty_project fs_empty_project_final);
    [reflexivity | vm_compute; reflexivity].
Defined.

(** C3: the manifest with a build script and nothing else is classified
    [vite]. *)
Lemma build_script_alone_is_vite_witness :
  detect_project_type load_build_only ["p"] fs_build_only = vite ∧
  tag (detect_project_type load_build_only ["p"] fs_build_only) ≠ "node".
Proof.
  apply (build_script_alone_is_vite load_build_only ["p"] fs_build_only
           build_only_text build_only_manifest
           {[ "build" := JStr "x" ]} ∅);
    try reflexivity.
  exists (JStr "x"). reflexivity.
Defined.

(** C5 on the machine where [npm run build] exits with status 1. *)
Lemma failed_build_is_soft_witness :
  build_node_project build_exits_1 ["p"] fs_build_only
    = ((true, "No build script found, serving source files"), fs_build_only).
Proof.
  apply (failed_build_is_soft build_exits_1 ["p"]
           fs_build_only fs_build_only fs_build_only fs_build_only
           "ok" EmptyString "ok" EmptyString
           EmptyString "npm error Missing script: build");
    reflexivity.
Defined.

(** C7 with a stale file in the deploy directory. *)
Lemma staging_is_idempotent_witness :
  copy_to_deploy ["p"; "dist"] ["d"] fs_stale_deploy = Ok fs_dist_staged ∧
  copy_to_deploy ["p"; "dist"] ["d"] fs_dist_staged = Ok fs_dist_staged ∧
  ∀ s2, copy_to_deploy ["p"; "dist"] ["d"] fs_dist_staged = Ok s2 →
        resolve ["d"] s2 = resolve ["d"] fs_dist_staged.
Proof.
  assert (copy_to_deploy ["p"; "dist"] ["d"] fs_stale_deploy = Ok fs_dist_staged)
    as Hrun by (vm_compute; reflexivity).
  split; [exact Hrun|]. split; [vm_compute; reflexivity|].
  exact (proj1 (staging_is_idempotent ["p"; "dist"] ["d"]
                  fs_stale_deploy fs_dist_staged Hrun)).
Defined.

(** C7 as the specification states it fails for the static site [/p]
    staged to [/p/a/b]: the first run returns, with a copy of the site
    in [/p/a/b], and the second run raises. *)
Lemma second_staging_below_source_raises :
  copy_to_deploy ["p"] ["p"; "a"; "b"] fs_static_site
    = Ok fs_static_site_nested ∧
  resolve ["p"; "a"; "b"] fs_static_site_nested = resolve ["p"] fs_static_site ∧
  copy_to_deploy ["p"] ["p"; "a"; "b"] fs_static_site_nested
    = Raise RecursionError.
Proof. repeat split; vm_compute; reflexivity. Qed.

(** C8 as the specification states it fails when the deploy path is a
    regular file: two arguments, an existing project, and the process
    exits with status 1 on the [NotADirectoryError] of [shutil.rmtree]. *)
Lemma uncaught_staging_error_exits_1 :
  length ["worker.py"; "/p"; "/d"] = 3%nat ∧
  path_exists (abspath [] "/p") fs_deploy_is_file = true ∧
  main nothing_runs load_build_only [] ["worker.py"; "/p"; "/d"] fs_deploy_is_file
    = Uncaught NotADirectoryError ∧
  exit_status
    (main nothing_runs load_build_only [] ["worker.py"; "/p"; "/d"]
       fs_deploy_is_file) = 1 ∧
  ¬ fatal_arguments [] ["worker.py"; "/p"; "/d"] fs_deploy_is_file.
Proof.
  split; [reflexivity|]. split; [reflexivity|].
  split; [vm_compute; reflexivity|]. split; [vm_compute; reflexivity|].
  intros [Hlen|(prog & arg1 & arg2 & [= _ <- _] & Hno)]; [done|].
  vm_compute in Hno. discriminate.
Qed.

(** A run whose build step fails ([npm] is not there) exits with
    status 0. *)
Example failed_build_exits_0 :
  build_phase nothing_runs load_build_only ["p"] fs_build_only
    = Ok (false, "npm not available", None, fs_build_only) ∧
  exit_status
    (main nothing_runs load_build_only [] ["worker.py"; "/p"; "/d"] fs_build_only)
    = 0.
Proof. split; vm_compute; reflexivity. Qed.

(** C10 at a project whose [dist] has no [index.html]. *)
Lemma safety_net_only_after_copy_witness :
  stage (Some ["p"; "dist"]) ["p"] ["d"] true EmptyString fs_dist
    = Ok fs_dist_staged ∧
  ensure_index ["d"] fs_dist_staged = Ok fs_dist_final ∧
  (path_exists (path_join ["d"] "index.html") fs_dist_staged = false →
   resolve (path_join ["d"] "index.html") fs_dist_final
     = Some (File (html_content "Deployment completed")) ∧
   ∃ source cleaned m,
     (Some ["p"; "dist"] = Some source ∨
      Some ["p"; "dist"] = None ∧ source = ["p"] ∧
      path_exists (path_join ["p"] "index.html") fs_dist = true) ∧
     (if path_exists ["d"] fs_dist then rmtree ["d"] fs_dist else Ok fs_dist)
       = Ok cleaned ∧
     resolve source cleaned = Some (Dir m) ∧
     m !! "index.html" = None ∧
     resolve ["d"] fs_dist_staged = Some (Dir m)).
Proof.
  assert (stage (Some ["p"; "dist"]) ["p"] ["d"] true EmptyString fs_dist
          = Ok fs_dist_staged) as Hs by (vm_compute; reflexivity).
  assert (ensure_index ["d"] fs_dist_staged = Ok fs_dist_final) as He
    by (vm_compute; reflexivity).
  split; [exact Hs|]. split; [exact He|].
  exact (proj2 (safety_net_only_after_copy (Some ["p"; "dist"]) ["p"] ["d"]
                  true EmptyString fs_dist fs_dist_staged fs_dist_final Hs He)).
Defined.

(** The final check can also write its page after a copy of the project
    root: the project holds a directory named [index.html], the deploy
    path is that directory, and the copy of the project made after its
    deletion has no [index.html]. *)
Example safety_net_after_project_copy :
  path_exists (path_join ["p"] "index.html") fs_index_is_dir = true ∧
  find_build_output ["p"] fs_index_is_dir = Ok None ∧
  main nothing_runs load_build_only [] ["worker.py"; "/p"; "/p/index.html"]
    fs_index_is_dir = Returned fs_index_is_dir_final.
Proof. repeat split; vm_compute; reflexivity. Qed.

(* ===================================================================== *)
(** * More on the file system *)
(* ===================================================================== *)

Lemma strip_prefix_app (p r : path) : strip_prefix p (p ++ r) = Some r.
Proof. by apply strip_prefix_Some. Qed.

Lemma diverge_nil_l (q : path) : ¬ diverge [] q.
Proof. by intros [H _]. Qed.

Lemma diverge_nil_r (p : path) : ¬ diverge p [].
Proof. by intros [_ H]. Qed.

Lemma diverge_cons (a b : string) (p q : path) :
  diverge (a :: p) (b :: q) ↔ a ≠ b ∨ a = b ∧ diverge p q.
Proof.
  unfold diverge. simpl.
  destruct (decide (a = b)) as [->|Hne].
  - rewrite decide_True by done. split; [by right|]. by intros [?|[_ ?]].
  - rewrite decide_False by done. split; [by left | done].
Qed.

Lemma diverge_sym (p q : path) : diverge p q → diverge q p.
Proof. by intros [? ?]. Qed.

Lemma resolve_in_empty (p : path) : p ≠ [] → resolve p (Dir ∅) = None.
Proof. destruct p as [|c p]; [done|]. intros _. simpl. by rewrite lookup_empty. Qed.

(** Placing a node leaves what is at a diverging path as it is. *)
Lemma resolve_place_diverge (p d : path) (t n : node) :
  diverge p d → resolve p (place d t n) = resolve p n.
Proof.
  revert d n. induction p as [|a p IH]; intros d n Hd.
  - by apply diverge_nil_l in Hd.
  - destruct d as [|b d]; [by apply diverge_nil_r in Hd|].
    cbn [place resolve].
    apply diverge_cons in Hd as [Hne|[<- Hd]].
    + rewrite lookup_insert_ne by done.
      destruct n as [content|m]; [by rewrite lookup_empty | done].
    + rewrite lookup_insert_eq. simpl. rewrite IH by done.
      assert (p ≠ []) as Hp by (intros ->; by apply diverge_nil_l in Hd).
      destruct n as [content|m].
      * rewrite lookup_empty. simpl. by apply resolve_in_empty.
      * destruct (m !! a) as [na|]; simpl; [done|]. by apply resolve_in_empty.
Qed.

(** So does unlinking one. *)
Lemma resolve_remove_diverge (p d : path) (n : node) :
  diverge p d → resolve p (remove d n) = resolve p n.
Proof.
  revert d n. induction p as [|a p IH]; intros d n Hd.
  - by apply diverge_nil_l in Hd.
  - destruct d as [|b d]; [by apply diverge_nil_r in Hd|].
    destruct n as [content|m]; [done|].
    apply diverge_cons in Hd as [Hne|[<- Hd]].
    + simpl. destruct d as [|c d]; simpl.
      * by rewrite lookup_delete_ne.
      * by rewrite lookup_alter_ne.
    + destruct d as [|c d]; [by apply diverge_nil_r in Hd|].
      change (remove (a :: c :: d) (Dir m))
        with (Dir (alter (remove (c :: d)) a m)).
      cbn [resolve]. rewrite lookup_alter_eq.
      destruct (m !! a) as [na|]; [|done]. exact (IH (c :: d) na Hd).
Qed.

(** What [place] leaves at the parent of the path it fills. *)
Lemma entries_at_empty (p : path) : entries_at p (Dir ∅) = ∅.
Proof.
  unfold entries_at. destruct p as [|c p]; [done|].
  by rewrite resolve_in_empty.
Qed.

Lemma resolve_place_parent (d : path) (c : string) (t n : node) :
  resolve d (place (d ++ [c]) t n) = Some (Dir (<[c := t]> (entries_at d n))).
Proof.
  revert n. induction d as [|a d IH]; intros n.
  - unfold entries_at. simpl. by destruct n.
  - cbn [app place resolve]. rewrite lookup_insert_eq. simpl. rewrite IH.
    do 3 f_equal. unfold entries_at at 2. simpl.
    destruct n as [content|m].
    + rewrite lookup_empty. simpl. apply entries_at_empty.
    + destruct (m !! a) as [na|]; simpl; [done|]. apply entries_at_empty.
Qed.

(** Creating the directories of [d] first changes nothing for a later
    [place] below [d]. *)
Lemma place_after_makedirs (d : path) (c : string) (t n : node) :
  resolve d n = None ∨ n = Dir ∅ →
  place (d ++ [c]) t (place d (Dir ∅) n) = place (d ++ [c]) t n.
Proof.
  revert n. induction d as [|a d IH]; intros n Hn.
  - destruct Hn as [Hn| ->]; done.
  - cbn [app place]. rewrite lookup_insert_eq. cbn [default].
    rewrite insert_insert_eq. do 2 f_equal. apply IH.
    destruct Hn as [Hn| ->].
    + destruct n as [content|m]; simpl in *.
      * rewrite lookup_empty. by right.
      * destruct (m !! a) as [na|]; simpl in *; [by left | by right].
    + rewrite lookup_empty. by right.
Qed.

Lemma blocked_remove (d : path) (n : node) :
  is_Some (resolve d n) → blocked d (remove d n) = false.
Proof.
  revert n. induction d as [|a d IH]; intros n Hn; [done|].
  destruct n as [content|m]; [by destruct Hn|].
  simpl in Hn. destruct (m !! a) as [na|] eqn:Ha; [|by destruct Hn].
  simpl in Hn. destruct d as [|c d].
  - simpl. by rewrite lookup_delete_eq.
  - change (remove (a :: c :: d) (Dir m))
      with (Dir (alter (remove (c :: d)) a m)).
    cbn [blocked]. rewrite lookup_alter_eq, Ha. exact (IH na Hn).
Qed.

(* ===================================================================== *)
(** * Staging and the fallback page, in full *)
(* ===================================================================== *)

Lemma index_path (d : path) : path_join d "index.html" = d ++ ["index.html"].
Proof. reflexivity. Qed.

Lemma write_text_shape (p : path) (content : string) (s s' : fs) :
  write_text p content s = Ok s' → s' = place p (File content) s.
Proof.
  unfold write_text.
  destruct (resolve p s) as [[|]|]; try done; [congruence|].
  destruct (resolve (removelast p) s) as [[|]|]; try done; congruence.
Qed.

(** A page that could be written is the old file system with the page
    placed at [deploy_path/index.html]. *)
Lemma create_fallback_page_shape (deploy_path : path) (message : string)
    (s s' : fs) :
  create_fallback_page deploy_path message s = Ok s' →
  s' = place (path_join deploy_path "index.html")
         (File (html_content message)) s.
Proof.
  unfold create_fallback_page. intros (s1 & Hmk & Hw)%bind_Ok.
  apply write_text_shape in Hw as ->. unfold makedirs in Hmk.
  destruct (resolve deploy_path s) as [[content|m]|] eqn:Hd; try done.
  - by injection Hmk as <-.
  - destruct (blocked deploy_path s); [done|]. injection Hmk as <-.
    rewrite index_path. apply place_after_makedirs. by left.
Qed.

(** When the page can be written. *)
Lemma create_fallback_page_Ok_iff (deploy_path : path) (message : string)
    (s : fs) :
  (∃ s', create_fallback_page deploy_path message s = Ok s') ↔
  (path_isdir deploy_path s = true ∨
   path_exists deploy_path s = false ∧ blocked deploy_path s = false) ∧
  path_isdir (path_join deploy_path "index.html") s = false.
Proof.
  unfold create_fallback_page, makedirs, path_isdir, path_exists.
  rewrite index_path, resolve_app.
  destruct (resolve deploy_path s) as [[content|m]|] eqn:Hd; simpl.
  - split; [by intros [s' ?] | by intros [[?|[? _]] _]].
  - unfold write_text. rewrite resolve_app, Hd, removelast_last, Hd. simpl.
    destruct (m !! "index.html") as [[c|mi]|]; simpl.
    + split; [intros _; split; [by left|done] | eauto].
    + split; [by intros [s' ?] | by intros [_ ?]].
    + split; [intros _; split; [by left|done] | eauto].
  - destruct (blocked deploy_path s) eqn:Hb; simpl.
    + split; [by intros [s' ?] | by intros [[?|[_ ?]] _]].
    + unfold write_text.
      rewrite resolve_app, removelast_last, resolve_place. simpl.
      rewrite lookup_empty. simpl.
      split; [intros _; split; [by right|done] | eauto].
Qed.

(** X11. A fallback page that is written is the only change in the
    deploy directory: the directory holds what it held before plus
    [index.html], and every path that diverges from
    [deploy_path/index.html] resolves as before. *)
Theorem fallback_page_keeps_entries (deploy_path : path) (message : string)
    (s s' : fs) :
  create_fallback_page deploy_path message s = Ok s' →
  resolve deploy_path s'
    = Some (Dir (<["index.html" := File (html_content message)]>
                   (entries_at deploy_path s))) ∧
  ∀ p, diverge p (path_join deploy_path "index.html") →
       resolve p s' = resolve p s.
Proof.
  intros ->%create_fallback_page_shape. split.
  - rewrite index_path. apply resolve_place_parent.
  - intros p Hp. by apply resolve_place_diverge.
Qed.

(** X12. [create_fallback_page] raises [FileExistsError] when the deploy
    path is a regular file, [NotADirectoryError] when the deploy path is
    absent below a regular file, [IsADirectoryError] when
    [deploy_path/index.html] is a directory, and writes the page in every
    other case. *)
Theorem fallback_page_failure_modes (deploy_path : path) (message : string)
    (s : fs) :
  create_fallback_page deploy_path message s =
  match resolve deploy_path s with
  | Some (File _) => Raise FileExistsError
  | Some (Dir m) =>
      match m !! "index.html" with
      | Some (Dir _) => Raise IsADirectoryError
      | _ => Ok (place (path_join deploy_path "index.html")
                   (File (html_content message)) s)
      end
  | None =>
      if blocked deploy_path s then Raise NotADirectoryError
      else Ok (place (path_join deploy_path "index.html")
                 (File (html_content message)) s)
  end.
Proof.
  destruct (create_fallback_page deploy_path message s) as [s'|e] eqn:Hc.
  - pose proof (create_fallback_page_shape _ _ _ _ Hc) as ->.
    assert (∃ s', create_fallback_page deploy_path message s = Ok s') as Hex
      by eauto.
    apply create_fallback_page_Ok_iff in Hex as [Hd Hi].
    unfold path_isdir, path_exists in Hd, Hi.
    rewrite index_path, resolve_app in Hi.
    destruct (resolve deploy_path s) as [[content|m]|]; simpl in *.
    + by destruct Hd as [?|[? _]].
    + by destruct (m !! "index.html") as [[c|mi]|].
    + destruct Hd as [?|[_ ->]]; done.
  - unfold create_fallback_page, makedirs in *.
    destruct (resolve deploy_path s) as [[content|m]|] eqn:Hd; simpl in *.
    + done.
    + unfold write_text in *.
      rewrite index_path, resolve_app, Hd, removelast_last, Hd in Hc.
      simpl in Hc. by destruct (m !! "index.html") as [[c|mi]|].
    + destruct (blocked deploy_path s); [done|]. simpl in Hc.
      unfold write_text in Hc.
      rewrite index_path, resolve_app, removelast_last, resolve_place in Hc.
      simpl in Hc. by rewrite lookup_empty in Hc.
Qed.

(** X13. Once a fallback page is written, writing another one over it
    never fails: the page then carries the second message, and the
    other entries of the deploy directory are those it held before the
    first page. *)
Theorem fallback_page_rewritten (deploy_path : path) (first second : string)
    (s s1 : fs) :
  create_fallback_page deploy_path first s = Ok s1 →
  ∃ s2, create_fallback_page deploy_path second s1 = Ok s2 ∧
        resolve (path_join deploy_path "index.html") s2
          = Some (File (html_content second)) ∧
        resolve deploy_path s2
          = Some (Dir (<["index.html" := File (html_content second)]>
                         (entries_at deploy_path s))).
Proof.
  intros ->%create_fallback_page_shape.
  set (s1 := place (path_join deploy_path "index.html")
               (File (html_content first)) s).
  assert (resolve deploy_path s1
          = Some (Dir (<["index.html" := File (html_content first)]>
                         (entries_at deploy_path s)))) as Hd
    by (unfold s1; rewrite index_path; apply resolve_place_parent).
  destruct (proj2 (create_fallback_page_Ok_iff deploy_path second s1))
    as [s2 H2].
  { unfold path_isdir. rewrite Hd. split; [by left|].
    unfold s1. by rewrite resolve_place. }
  exists s2. split; [done|].
  apply create_fallback_page_shape in H2 as ->. split.
  - apply resolve_place.
  - rewrite index_path, resolve_place_parent. unfold entries_at at 1.
    rewrite Hd. by rewrite insert_insert_eq.
Qed.

(** What a successful [copy_to_deploy] leaves. *)
Lemma copy_to_deploy_shape (source deploy_path : path) (s s1 : fs) :
  copy_to_deploy source deploy_path s = Ok s1 →
  ∃ m, resolve source (if path_exists deploy_path s
                       then remove deploy_path s else s) = Some (Dir m) ∧
       s1 = place deploy_path (Dir m)
              (if path_exists deploy_path s then remove deploy_path s else s).
Proof.
  intros (cleaned & m & Hc & Hsrc & _ & _ & -> & _)%copy_to_deploy_Ok.
  exists m. unfold rmtree in Hc.
  destruct (path_exists deploy_path s).
  - destruct (resolve deploy_path s) as [[content|md]|]; try done.
    destruct deploy_path; [done|]. by injection Hc as <-.
  - by injection Hc as <-.
Qed.

(** When [copy_to_deploy] succeeds for diverging paths. *)
Lemma copy_to_deploy_diverge_Ok (source deploy_path : path) (s : fs)
    (m : gmap string node) :
  diverge source deploy_path →
  resolve source s = Some (Dir m) →
  path_isdir deploy_path s = true ∨
  path_exists deploy_path s = false ∧ blocked deploy_path s = false →
  copy_to_deploy source deploy_path s
    = Ok (place deploy_path (Dir m)
            (if path_exists deploy_path s then remove deploy_path s else s)).
Proof.
  intros Hdiv Hsrc Hd. unfold copy_to_deploy, path_exists, path_isdir in *.
  assert (deploy_path ≠ []) as Hne
    by (intros ->; by apply diverge_nil_r in Hdiv).
  assert (copies_into_itself source deploy_path
            (remove deploy_path s) = false ∧
          copies_into_itself source deploy_path s = false) as [Hr1 Hr2].
  { unfold copies_into_itself. by rewrite (proj1 Hdiv). }
  destruct (resolve deploy_path s) as [[content|md]|] eqn:Hres.
  - by destruct Hd as [?|[? _]].
  - unfold rmtree. rewrite Hres. destruct deploy_path as [|c q] eqn:E; [done|].
    rewrite <- E in *. simpl. apply copytree_Ok. exists m.
    rewrite resolve_remove_diverge, resolve_remove, blocked_remove by eauto.
    done.
  - destruct Hd as [?|[_ Hb]]; [done|]. simpl. apply copytree_Ok.
    by exists m.
Qed.

(** X8. A staging that succeeds changes nothing outside the deploy path:
    every path that diverges from it, the source among them, resolves as
    before. *)
Theorem staging_touches_only_deploy (source deploy_path : path) (s s1 : fs) :
  copy_to_deploy source deploy_path s = Ok s1 →
  ∀ p, diverge p deploy_path → resolve p s1 = resolve p s.
Proof.
  intros (m & _ & ->)%copy_to_deploy_shape p Hp.
  rewrite resolve_place_diverge by done.
  destruct (path_exists deploy_path s); [|done].
  by apply resolve_remove_diverge.
Qed.

(** X9. Wholesale replacement. For a source directory and a deploy path
    that diverge, with the deploy path a directory or absent and
    creatable, [copy_to_deploy] succeeds, the deploy directory becomes
    the tree of the source, whatever it held before, and the source is
    unchanged. *)
Theorem staging_replaces_wholesale (source deploy_path : path) (s : fs) :
  diverge source deploy_path →
  path_isdir source s = true →
  path_isdir deploy_path s = true ∨
  path_exists deploy_path s = false ∧ blocked deploy_path s = false →
  ∃ s1, copy_to_deploy source deploy_path s = Ok s1 ∧
        resolve deploy_path s1 = resolve source s ∧
        resolve source s1 = resolve source s.
Proof.
  intros Hdiv Hsrc Hd. unfold path_isdir in Hsrc.
  destruct (resolve source s) as [[content|m]|] eqn:Hm; try done.
  eexists. split; [by apply (copy_to_deploy_diverge_Ok _ _ _ m)|].
  split; [by rewrite resolve_place|].
  rewrite resolve_place_diverge by done.
  destruct (path_exists deploy_path s); [|done].
  by rewrite resolve_remove_diverge.
Qed.

(** X10. When the source is the deploy path or lies below it,
    [copy_to_deploy] always raises: deleting the deploy path deletes the
    source. *)
Theorem staging_source_in_deploy_fails (deploy_path rest : path) (s : fs) :
  ∃ e, copy_to_deploy (deploy_path ++ rest) deploy_path s = Raise e.
Proof.
  unfold copy_to_deploy, path_exists, rmtree.
  destruct (resolve deploy_path s) as [[content|md]|] eqn:Hd.
  - eauto.
  - destruct deploy_path as [|c q] eqn:E; [eauto|]. rewrite <- E in *.
    simpl. unfold copytree.
    rewrite resolve_app, resolve_remove by (by rewrite E). eauto.
  - simpl. unfold copytree. rewrite resolve_app, Hd. eauto.
Qed.

(* ===================================================================== *)
(** * Classification, in full *)
(* ===================================================================== *)

Lemma prefix_append (sub rest : string) : String.prefix sub (sub +:+ rest) = true.
Proof.
  induction sub as [|a sub IH]; simpl; [by destruct rest|].
  destruct (ascii_dec a a); [done|congruence].
Qed.

Lemma contains_prefix (sub s : string) :
  String.prefix sub s = true → contains sub s = true.
Proof. destruct s; simpl; by intros ->. Qed.

Lemma contains_append (before sub rest : string) :
  contains sub (before +:+ sub +:+ rest) = true.
Proof.
  induction before as [|a before IH]; simpl.
  - change (contains sub (sub +:+ rest) = true).
    apply contains_prefix, prefix_append.
  - rewrite IH. apply orb_true_r.
Qed.

Section ClassifierFacts.

Variable json_load : string → option json.

(** The result of the [try] block, when it returns. *)
Lemma detect_from_manifest (project_path : path) (s : fs) (text : string)
    (pkg : json) (t : project_type) :
  read_text (path_join project_path "package.json") s = Ok text →
  json_load text = Some pkg →
  classify_manifest pkg = Some t →
  detect_project_type json_load project_path s = t.
Proof.
  intros Hread Hload Hc. unfold detect_project_type.
  assert (path_exists (path_join project_path "package.json") s = true) as ->.
  { unfold read_text in Hread. unfold path_exists.
    by destruct (resolve _ s). }
  rewrite Hread, Hload. simpl. by rewrite Hc.
Qed.

(** The decision for a manifest whose scripts and dependencies are
    mappings. *)
Lemma classify_mappings (pkg : json) (scripts deps : gmap string json) :
  py_get pkg "scripts" = Some (JObj scripts) →
  py_get pkg "dependencies" = Some (JObj deps) →
  classify_manifest pkg =
  Some (if bool_decide (is_Some (deps !! "next")) then nextjs
        else if bool_decide (is_Some (deps !! "vite"))
                || bool_decide (is_Some (scripts !! "build")) then vite
        else if bool_decide (is_Some (deps !! "react-scripts")) then cra
        else static).
Proof.
  intros Hs Hd. unfold classify_manifest. rewrite Hs, Hd. simpl.
  destruct (bool_decide (is_Some (deps !! "next"))); [done|].
  destruct (bool_decide (is_Some (deps !! "vite"))); simpl; [done|].
  destruct (bool_decide (is_Some (scripts !! "build"))) eqn:Hb; simpl; [done|].
  by destruct (bool_decide (is_Some (deps !! "react-scripts"))).
Qed.

(** X1. For a manifest whose scripts and dependencies are mappings, the
    type is [cra] exactly when [react-scripts] is a dependency, [next]
    and [vite] are not, and there is no [build] script: a project with
    [react-scripts] and a build script is classified [vite]. *)
Theorem cra_only_without_build_script (project_path : path) (s : fs)
    (text : string) (pkg : json) (scripts deps : gmap string json) :
  read_text (path_join project_path "package.json") s = Ok text →
  json_load text = Some pkg →
  py_get pkg "scripts" = Some (JObj scripts) →
  py_get pkg "dependencies" = Some (JObj deps) →
  (detect_project_type json_load project_path s = cra ↔
     is_Some (deps !! "react-scripts") ∧ deps !! "next" = None ∧
     deps !! "vite" = None ∧ scripts !! "build" = None) ∧
  (is_Some (deps !! "react-scripts") → is_Some (scripts !! "build") →
   deps !! "next" = None →
   detect_project_type json_load project_path s = vite).
Proof.
  intros Hread Hload Hs Hd.
  rewrite (detect_from_manifest _ _ _ _ _ Hread Hload
             (classify_mappings _ _ _ Hs Hd)).
  split.
  - destruct (deps !! "next"), (deps !! "vite"), (deps !! "react-scripts"),
      (scripts !! "build"); cbn;
      (split; [try discriminate; intros _; by eauto
              | intros (H1 & H2 & H3 & H4); try done; by destruct H1]).
  - intros Hr Hb Hn.
    rewrite bool_decide_eq_false_2 by (by rewrite Hn; intros [? ?]).
    rewrite (bool_decide_eq_true_2 (is_Some (scripts !! "build"))) by done.
    by rewrite orb_true_r.
Qed.

(** X4. For a manifest whose scripts and dependencies are mappings, the
    type is never [unknown], and it is [static] exactly when there is no
    [build] script and none of [next], [vite], [react-scripts] is a
    dependency, whether the project has an [index.html] or not. *)
Theorem manifest_without_markers_is_static (project_path : path) (s : fs)
    (text : string) (pkg : json) (scripts deps : gmap string json) :
  read_text (path_join project_path "package.json") s = Ok text →
  json_load text = Some pkg →
  py_get pkg "scripts" = Some (JObj scripts) →
  py_get pkg "dependencies" = Some (JObj deps) →
  detect_project_type json_load project_path s ≠ unknown ∧
  (detect_project_type json_load project_path s = static ↔
     deps !! "next" = None ∧ deps !! "vite" = None ∧
     deps !! "react-scripts" = None ∧ scripts !! "build" = None).
Proof.
  intros Hread Hload Hs Hd.
  rewrite (detect_from_manifest _ _ _ _ _ Hread Hload
             (classify_mappings _ _ _ Hs Hd)).
  destruct (deps !! "next"), (deps !! "vite"), (deps !! "react-scripts"),
    (scripts !! "build"); cbn; (split; [done|]);
    (split; [try discriminate; by intros _
            | by intros (H1 & H2 & H3 & H4)]).
Qed.

(** X2. A manifest with [next] among its dependencies is classified
    [nextjs] whatever its scripts are, also when they are not a mapping:
    the scripts are not looked at. *)
Theorem next_dependency_wins (project_path : path) (s : fs) (text : string)
    (members deps : gmap string json) :
  read_text (path_join project_path "package.json") s = Ok text →
  json_load text = Some (JObj members) →
  members !! "dependencies" = Some (JObj deps) →
  is_Some (deps !! "next") →
  detect_project_type json_load project_path s = nextjs.
Proof.
  intros Hread Hload Hd Hn.
  apply (detect_from_manifest _ _ _ _ _ Hread Hload).
  unfold classify_manifest. simpl. rewrite Hd. simpl.
  by rewrite bool_decide_eq_true_2.
Qed.

(** X3. When the manifest cannot be used, the type is [static] if the
    project has an [index.html] and [unknown] otherwise. That is so when
    there is no [package.json], when it is a directory, when [json.load]
    fails, when the document is not an object, and when its dependencies
    are null, a boolean or a number. *)
Theorem unusable_manifest_falls_through (project_path : path) (s : fs) :
  (path_exists (path_join project_path "package.json") s = false →
   detect_project_type json_load project_path s
     = if path_exists (path_join project_path "index.html") s
       then static else unknown) ∧
  (path_isdir (path_join project_path "package.json") s = true →
   detect_project_type json_load project_path s
     = if path_exists (path_join project_path "index.html") s
       then static else unknown) ∧
  (∀ text,
     read_text (path_join project_path "package.json") s = Ok text →
     match json_load text with
     | None => True
     | Some (JObj members) =>
         match members !! "dependencies" with
         | Some (JNull | JBool _ | JInt _ | JFloat _) => True
         | _ => False
         end
     | Some _ => True
     end →
     detect_project_type json_load project_path s
       = if path_exists (path_join project_path "index.html") s
         then static else unknown).
Proof.
  unfold detect_project_type. split; [|split].
  - by intros ->.
  - unfold path_isdir, path_exists, read_text.
    by destruct (resolve (path_join project_path "package.json") s) as [[|]|].
  - intros text Hread Hbad. rewrite Hread.
    destruct (path_exists (path_join project_path "package.json") s); [|done].
    destruct (json_load text) as [[| | | | | |members]|]; simpl; try done.
    unfold classify_manifest. simpl.
    by destruct (members !! "dependencies") as [[| | | | | |]|].
Qed.

(** X5. Dependencies that are not a mapping are still searched: an array
    selects [nextjs] when the string [next] is one of its items, a string
    when it has [next] as a substring. *)
Theorem dependencies_array_or_string (project_path : path) (s : fs)
    (text : string) (members : gmap string json) :
  read_text (path_join project_path "package.json") s = Ok text →
  json_load text = Some (JObj members) →
  (∀ items, members !! "dependencies" = Some (JArr items) →
            JStr "next" ∈ items →
            detect_project_type json_load project_path s = nextjs) ∧
  (∀ before rest,
     members !! "dependencies" = Some (JStr (before +:+ "next" +:+ rest)) →
     detect_project_type json_load project_path s = nextjs).
Proof.
  intros Hread Hload. split.
  - intros items Hd Hin.
    apply (detect_from_manifest _ _ _ _ _ Hread Hload).
    unfold classify_manifest. simpl. rewrite Hd. simpl.
    assert (existsb (str_equals "next") items = true) as ->; [|done].
    apply existsb_exists. exists (JStr "next").
    split; [by apply list_elem_of_In | done].
  - intros before rest Hd.
    apply (detect_from_manifest _ _ _ _ _ Hread Hload).
    unfold classify_manifest. simpl. rewrite Hd. simpl.
    by rewrite contains_append.
Qed.

End ClassifierFacts.

(* ===================================================================== *)
(** * The build and the pipeline, in full *)
(* ===================================================================== *)

Lemma find_among_Some (cs : list string) (project_path : path) (s : fs)
    (full : path) :
  find_among cs project_path s = Ok (Some full) →
  ∃ c, full = path_join project_path c ∧ nonempty_dir full s.
Proof.
  induction cs as [|c cs IH]; [done|].
  destruct (nonempty_dir_dec (path_join project_path c) s) as [Hy|Hn].
  - rewrite find_among_hit by done. intros [= <-]. by exists c.
  - rewrite find_among_miss by done. apply IH.
Qed.

Lemma copy_to_deploy_below_deploy (deploy_path rest : path) (s s1 : fs) :
  copy_to_deploy (deploy_path ++ rest) deploy_path s = Ok s1 → False.
Proof.
  intros (cleaned & m & Hc & Hsrc & Hdst & _)%copy_to_deploy_Ok.
  by rewrite resolve_app, Hdst in Hsrc.
Qed.

Lemma has_index (p : path) (s : fs) :
  path_exists (path_join p "index.html") s = true →
  ∃ m, resolve p s = Some (Dir m) ∧ is_Some (m !! "index.html").
Proof.
  unfold path_exists. rewrite index_path, resolve_app.
  destruct (resolve p s) as [[content|m]|]; simpl; try done.
  destruct (m !! "index.html") as [t|] eqn:E; [|done].
  intros _. exists m. by rewrite E.
Qed.

Section BuildFacts.

Variable subprocess_run : list string → path → Z → fs → run_outcome * fs.
Variable json_load : string → option json.
Variable getcwd : path.

(** X6. [build_node_project] reports success exactly when the probe for
    [npm] and [npm install] succeed: the outcome of [npm run build] never
    makes it report a failure. A failure carries the message
    "npm not available" or "npm install failed: " followed by the
    captured standard error. *)
Theorem build_fails_only_before_build (project_path : path) (s : fs) :
  ((build_node_project subprocess_run project_path s).1.1 = true ↔
   (run_command subprocess_run ["which"; "npm"] project_path s).1.1.1 = true ∧
   (run_command subprocess_run ["npm"; "install"] project_path
      (run_command subprocess_run ["which"; "npm"] project_path s).2).1.1.1
     = true) ∧
  ((build_node_project subprocess_run project_path s).1.1 = false →
   (build_node_project subprocess_run project_path s).1.2 = "npm not available" ∨
   (build_node_project subprocess_run project_path s).1.2
     = "npm install failed: " +:+
       (run_command subprocess_run ["npm"; "install"] project_path
          (run_command subprocess_run ["which"; "npm"] project_path s).2).1.2).
Proof.
  unfold build_node_project.
  destruct (run_command subprocess_run ["which"; "npm"] project_path s)
    as [[[ok1 out1] err1] s1]; simpl.
  destruct ok1; simpl; [|split; [by split; [|intros [? _]] | by left]].
  destruct (run_command subprocess_run ["npm"; "install"] project_path s1)
    as [[[ok2 out2] err2] s2]; simpl.
  destruct ok2; simpl; [|split; [by split; [|intros [_ ?]] | by right]].
  destruct (run_command subprocess_run ["npm"; "run"; "build"] project_path s2)
    as [[[ok3 out3] err3] s3]; simpl.
  by destruct ok3.
Qed.

(** X7. Timeouts in the build. When [npm install] runs into the timeout,
    the build fails with the message "npm install failed: Build timed out
    after 10 minutes"; when [npm run build] does, the build is reported
    as a success without a build script. *)
Theorem build_timeouts (project_path : path) (s s1 s2 : fs)
    (out1 err1 : string) :
  subprocess_run ["which"; "npm"] project_path 600 s
    = (CompletedProcess 0 out1 err1, s1) →
  (subprocess_run ["npm"; "install"] project_path 600 s1
     = (TimeoutExpired, s2) →
   build_node_project subprocess_run project_path s
     = ((false, "npm install failed: Build timed out after 10 minutes"), s2)) ∧
  (∀ out2 err2 s3,
     subprocess_run ["npm"; "install"] project_path 600 s1
       = (CompletedProcess 0 out2 err2, s2) →
     subprocess_run ["npm"; "run"; "build"] project_path 600 s2
       = (TimeoutExpired, s3) →
     build_node_project subprocess_run project_path s
       = ((true, "No build script found, serving source files"), s3)).
Proof.
  intros H1. unfold build_node_project, run_command. rewrite H1. simpl. split.
  - by intros ->.
  - intros out2 err2 s3 -> ->. done.
Qed.

(** The build phase of a project that is not built. *)
Lemma build_phase_not_built (project_path : path) (s : fs) :
  detect_project_type json_load project_path s ∈ [static; unknown] →
  build_phase subprocess_run json_load project_path s
    = (build_output ← find_build_output project_path s;
       Ok (true, EmptyString, build_output, s)).
Proof.
  intros Ht. unfold build_phase.
  destruct (detect_project_type json_load project_path s);
    try done; exfalso;
    repeat (apply elem_of_cons in Ht as [Ht|Ht]; [done|]);
    by apply elem_of_nil in Ht.
Qed.

End BuildFacts.

Section PipelineFacts.

Variable subprocess_run : list string → path → Z → fs → run_outcome * fs.
Variable json_load : string → option json.
Variable getcwd : path.

(** X14. No command is run for a project classified [static] or
    [unknown]: the run of [main] is the same on every machine, whatever
    its commands would do. *)
Theorem no_command_for_static_projects
    (other_run : list string → path → Z → fs → run_outcome * fs)
    (prog arg1 arg2 : string) (s : fs) :
  detect_project_type json_load (abspath getcwd arg1) s ∈ [static; unknown] →
  main subprocess_run json_load getcwd [prog; arg1; arg2] s
    = main other_run json_load getcwd [prog; arg1; arg2] s.
Proof.
  intros Ht. unfold main, pipeline.
  by rewrite !build_phase_not_built.
Qed.

(** X15. A static site is copied whole. For a project without manifest
    and without build output that has an [index.html], and a deploy path
    that diverges from the project path and is a directory or absent and
    creatable, the pipeline succeeds and the deploy directory is the
    tree of the project. *)
Theorem static_site_is_copied_whole (project_path deploy_path : path) (s : fs) :
  path_exists (path_join project_path "package.json") s = false →
  path_exists (path_join project_path "index.html") s = true →
  find_build_output project_path s = Ok None →
  diverge project_path deploy_path →
  path_isdir deploy_path s = true ∨
  path_exists deploy_path s = false ∧ blocked deploy_path s = false →
  ∃ s', pipeline subprocess_run json_load project_path deploy_path s = Ok s' ∧
        resolve deploy_path s' = resolve project_path s.
Proof.
  intros Hnopkg Hindex Hfind Hdiv Hd.
  destruct (has_index _ _ Hindex) as (m & Hm & Hi).
  exists (place deploy_path (Dir m)
            (if path_exists deploy_path s then remove deploy_path s else s)).
  split; [|by rewrite resolve_place].
  unfold pipeline. rewrite build_phase_not_built.
  - rewrite Hfind. simpl. rewrite Hindex.
    rewrite (copy_to_deploy_diverge_Ok _ _ _ m) by done. simpl.
    unfold ensure_index, path_exists.
    rewrite index_path, resolve_app, resolve_place. simpl.
    by destruct Hi as [t ->].
  - unfold detect_project_type. rewrite Hnopkg, Hindex.
    apply elem_of_cons. by left.
Qed.

(** X16. The outcome of the build does not gate staging. Whenever an
    output directory is found that diverges from the deploy path, a
    pipeline that completes leaves in the deploy directory the entries of
    the output directory, whether the build succeeded or not, and adds
    the page "Deployment completed" only when the output has no
    [index.html]. *)
Theorem output_is_staged_whatever_the_build (project_path deploy_path out : path)
    (build_success : bool) (build_message : string) (s s1 s' : fs) :
  build_phase subprocess_run json_load project_path s
    = Ok (build_success, build_message, Some out, s1) →
  diverge out deploy_path →
  pipeline subprocess_run json_load project_path deploy_path s = Ok s' →
  resolve deploy_path s'
    = Some (Dir (if bool_decide (is_Some (entries_at out s1 !! "index.html"))
                 then entries_at out s1
                 else <["index.html" := File (html_content "Deployment completed")]>
                        (entries_at out s1))).
Proof.
  intros Hb Hdiv (bs & bm & o & s1' & s2 & Hb' & Hs & He)%pipeline_Ok.
  rewrite Hb in Hb'. injection Hb' as <- <- <- <-. simpl in Hs.
  apply copy_to_deploy_shape in Hs as (m & Hm & ->).
  assert (entries_at out s1 = m) as ->.
  { unfold entries_at. destruct (path_exists deploy_path s1).
    - rewrite resolve_remove_diverge in Hm by done. by rewrite Hm.
    - by rewrite Hm. }
  unfold ensure_index, path_exists in He.
  rewrite index_path, resolve_app, resolve_place in He. simpl in He.
  destruct (m !! "index.html") as [t|] eqn:Hi; simpl in He.
  - injection He as <-. rewrite resolve_place.
    by rewrite bool_decide_eq_true_2.
  - apply create_fallback_page_shape in He as ->.
    rewrite index_path, resolve_place_parent. unfold entries_at.
    rewrite resolve_place.
    by rewrite bool_decide_eq_false_2 by (by intros [? ?]).
Qed.

(** X17. When [npm] is not there. For a project of a built type whose
    probe for [npm] fails, which has no build output and no
    [index.html], a pipeline that completes leaves the page with the
    message "Build failed: npm not available". *)
Theorem npm_missing_page (project_path deploy_path : path) (s s1 s' : fs)
    (out1 err1 : string) :
  detect_project_type json_load project_path s
    ∈ [nextjs; vite; cra; node_type] →
  run_command subprocess_run ["which"; "npm"] project_path s
    = ((false, out1, err1), s1) →
  find_build_output project_path s1 = Ok None →
  path_exists (path_join project_path "index.html") s1 = false →
  pipeline subprocess_run json_load project_path deploy_path s = Ok s' →
  resolve (path_join deploy_path "index.html") s'
    = Some (File (html_content "Build failed: npm not available")).
Proof.
  intros Ht Hprobe Hfind Hnoindex
    (bs & bm & o & s1' & s2 & Hb & Hs & He)%pipeline_Ok.
  unfold build_phase, build_node_project in Hb.
  rewrite bool_decide_eq_true_2 in Hb by done.
  rewrite Hprobe in Hb. simpl in Hb. rewrite Hfind in Hb. simpl in Hb.
  injection Hb as <- <- <- <-.
  by destruct (fallback_page_kept _ _ _ _ _ _ _ Hs He Hnoindex) as [_ ?].
Qed.

(** X18. A deploy path that is the project path or lies above it never
    receives a copy: whenever the pipeline comes to copy the build output
    or the project root, the copy raises, because the deletion of the
    deploy path has deleted the source. *)
Theorem deploy_above_project_fails (deploy_path rest : path)
    (build_success : bool) (build_message : string)
    (build_output : option path) (s s1 : fs) :
  build_phase subprocess_run json_load (deploy_path ++ rest) s
    = Ok (build_success, build_message, build_output, s1) →
  is_Some build_output ∨
  path_exists (path_join (deploy_path ++ rest) "index.html") s1 = true →
  ∃ e, pipeline subprocess_run json_load (deploy_path ++ rest) deploy_path s
       = Raise e.
Proof.
  intros Hb Hcopy.
  destruct (pipeline subprocess_run json_load (deploy_path ++ rest)
              deploy_path s) as [s'|e] eqn:Hp; [exfalso|eauto].
  apply pipeline_Ok in Hp as (bs & bm & o & s1' & s2 & Hb' & Hs & _).
  rewrite Hb in Hb'. injection Hb' as <- <- <- <-.
  destruct build_output as [out|]; simpl in Hs.
  - unfold build_phase in Hb.
    destruct (if bool_decide _ then _ else _) as [[bs' bm'] s1'] in Hb.
    apply bind_Ok in Hb as (o & Hfind & [= _ _ -> ->]).
    apply find_among_Some in Hfind as (c & -> & _).
    unfold path_join in Hs. rewrite <- app_assoc in Hs.
    by apply copy_to_deploy_below_deploy in Hs.
  - destruct Hcopy as [[? [=]]|Hi]. rewrite Hi in Hs.
    by apply copy_to_deploy_below_deploy in Hs.
Qed.

End PipelineFacts.

(* ===================================================================== *)
(** * The page *)
(* ===================================================================== *)

Lemma append_assoc (a b c : string) : (a +:+ b) +:+ c = a +:+ (b +:+ c).
Proof.
  induction a as [|x a IH]; [reflexivity|].
  change (String x ((a +:+ b) +:+ c) = String x (a +:+ (b +:+ c))).
  by rewrite IH.
Qed.

Lemma length_append (a b : string) :
  String.length (a +:+ b) = (String.length a + String.length b)%nat.
Proof.
  induction a as [|x a IH]; [reflexivity|].
  change (S (String.length (a +:+ b)) = S (String.length a + String.length b)).
  by rewrite IH.
Qed.

Lemma append_cancel_l (pre a b : string) : pre +:+ a = pre +:+ b → a = b.
Proof.
  induction pre as [|x pre IH]; [done|].
  change (String x (pre +:+ a) = String x (pre +:+ b) → a = b).
  intros [= H]. by apply IH.
Qed.

Lemma append_cancel_r (a b post : string) : a +:+ post = b +:+ post → a = b.
Proof.
  revert b. induction a as [|x a IH]; intros [|y b] H.
  - done.
  - apply (f_equal String.length) in H.
    change (String y b +:+ post) with (String y (b +:+ post)) in H.
    change (EmptyString +:+ post) with post in H.
    cbn [String.length] in H. rewrite length_append in H. lia.
  - apply (f_equal String.length) in H.
    change (String x a +:+ post) with (String x (a +:+ post)) in H.
    change (EmptyString +:+ post) with post in H.
    cbn [String.length] in H. rewrite length_append in H. lia.
  - change (String x (a +:+ post) = String y (b +:+ post)) in H.
    injection H as -> H. f_equal. by apply IH.
Qed.

(** X19. The page carries its message verbatim, without any escaping,
    between a fixed beginning and a fixed end; so the message can be read
    back from the page, and pages of different messages differ. *)
Theorem page_embeds_message_verbatim (message : string) :
  html_content message = html_prefix +:+ message +:+ html_suffix ∧
  ∀ other, html_content message = html_content other → message = other.
Proof.
  assert (∀ m, html_content m = html_prefix +:+ m +:+ html_suffix) as Hsplit.
  { intros m.
    transitivity (html_prefix +:+ (m +:+ "</p>") +:+
                  substring 4 (String.length html_suffix - 4) html_suffix).
    - vm_compute. reflexivity.
    - rewrite append_assoc. do 2 f_equal. }
  split; [apply Hsplit|].
  intros other H. rewrite !Hsplit in H.
  by apply append_cancel_l, append_cancel_r in H.
Qed.

(* ===================================================================== *)
(** * Corner cases of the pipeline *)
(* ===================================================================== *)

Section CornerCases.

Variable subprocess_run : list string → path → Z → fs → run_outcome * fs.
Variable json_load : string → option json.
Variable getcwd : path.

(** The build phase of a project path below which nothing exists. *)
Lemma build_phase_nothing_below (project_path : path) (s : fs) :
  (∀ rel, resolve (path_join project_path rel) s = None) →
  build_phase subprocess_run json_load project_path s
    = Ok (true, EmptyString, None, s).
Proof.
  intros Hnone. unfold build_phase, detect_project_type, path_exists.
  rewrite !Hnone.
  assert (bool_decide (unknown ∈ [nextjs; vite; cra; node_type]) = false)
    as -> by reflexivity.
  unfold find_build_output.
  rewrite (find_among_none subprocess_run json_load); [done|].
  intros c _ (m & Hm & _). by rewrite Hnone in Hm.
Qed.

(** X20. A project path that is a regular file passes the existence
    check of [main]: the project is classified [unknown], nothing is
    built or copied, and a run that completes leaves the page "Project
    built but no output found". *)
Theorem project_file_gets_fallback_page (prog arg1 arg2 content : string)
    (s s' : fs) :
  resolve (abspath getcwd arg1) s = Some (File content) →
  main subprocess_run json_load getcwd [prog; arg1; arg2] s = Returned s' →
  detect_project_type json_load (abspath getcwd arg1) s = unknown ∧
  resolve (path_join (abspath getcwd arg2) "index.html") s'
    = Some (File (html_content "Project built but no output found")).
Proof.
  intros Hfile Hmain.
  assert (∀ rel, resolve (path_join (abspath getcwd arg1) rel) s = None)
    as Hnone.
  { intros rel. unfold path_join. rewrite resolve_app, Hfile. simpl.
    destruct (split_slash rel) eqn:E; [|done].
    by apply split_slash_nonempty in E. }
  split.
  - unfold detect_project_type, path_exists. by rewrite !Hnone.
  - revert Hmain. unfold main, path_exists. rewrite Hfile. simpl.
    destruct (pipeline _ _ _ _ s) as [s3|e] eqn:Hp; [|done]. intros [= ->].
    apply pipeline_Ok in Hp as (bs & bm & out & s1 & s2 & Hb & Hs & He).
    rewrite build_phase_nothing_below in Hb by done.
    injection Hb as <- <- <- <-.
    apply (fallback_page_kept _ _ true EmptyString s s2 s' Hs He).
    apply path_exists_false, Hnone.
Qed.

(** X21. After staging and the final check, [index.html] in the deploy
    directory is a regular file, unless a copy ran and the tree copied
    has a directory of that name, which the final check takes for the
    page. *)
Theorem index_is_a_file_unless_copied (build_output : option path)
    (project_path deploy_path : path) (build_success : bool)
    (build_message : string) (s1 s2 s3 : fs) :
  stage build_output project_path deploy_path build_success build_message s1
    = Ok s2 →
  ensure_index deploy_path s2 = Ok s3 →
  (∃ content,
     resolve (path_join deploy_path "index.html") s3 = Some (File content)) ∨
  (∃ source cleaned m mi,
     (build_output = Some source ∨
      build_output = None ∧ source = project_path) ∧
     (if path_exists deploy_path s1 then rmtree deploy_path s1 else Ok s1)
       = Ok cleaned ∧
     resolve source cleaned = Some (Dir m) ∧
     m !! "index.html" = Some (Dir mi) ∧
     s3 = s2 ∧
     resolve (path_join deploy_path "index.html") s3 = Some (Dir mi)).
Proof.
  intros Hs He. unfold ensure_index in He.
  destruct (path_exists (path_join deploy_path "index.html") s2) eqn:Hex;
    simpl in He.
  2: { left. apply create_fallback_page_Ok in He. eauto. }
  injection He as <-.
  assert (∀ source, copy_to_deploy source deploy_path s1 = Ok s2 →
            (∃ content, resolve (path_join deploy_path "index.html") s2
                          = Some (File content)) ∨
            ∃ cleaned m mi,
              (if path_exists deploy_path s1 then rmtree deploy_path s1
               else Ok s1) = Ok cleaned ∧
              resolve source cleaned = Some (Dir m) ∧
              m !! "index.html" = Some (Dir mi) ∧
              resolve (path_join deploy_path "index.html") s2
                = Some (Dir mi)) as Hcopy.
  { intros source (cleaned & m & Hc & Hsrc & _ & _ & _ & Hres)%copy_to_deploy_Ok.
    rewrite (resolve_index _ m) by done.
    unfold path_exists in Hex. rewrite (resolve_index _ m) in Hex by done.
    destruct (m !! "index.html") as [[content|mi]|] eqn:Hi; [eauto| |done].
    right. by exists cleaned, m, mi. }
  destruct build_output as [out|]; simpl in Hs.
  - destruct (Hcopy out Hs) as [?|(cleaned & m & mi & ? & ? & ? & ?)];
      [by left|].
    right. exists out, cleaned, m, mi. repeat split; eauto.
  - destruct (path_exists (path_join project_path "index.html") s1).
    + destruct (Hcopy project_path Hs)
        as [?|(cleaned & m & mi & ? & ? & ? & ?)]; [by left|].
      right. exists project_path, cleaned, m, mi. repeat split; eauto.
    + left. destruct build_success;
        apply create_fallback_page_Ok in Hs; eauto.
Qed.

End CornerCases.

(* ===================================================================== *)
(** * More runs on the sample inputs *)
(* ===================================================================== *)

(** X1 at the manifest with [react-scripts] and a build script. *)
Lemma cra_only_without_build_script_witness :
  detect_project_type (load_one cra_build_text cra_build_manifest) ["p"]
    (fs_with_manifest cra_build_text) = vite.
Proof.
  refine (proj2 (cra_only_without_build_script
                   (load_one cra_build_text cra_build_manifest) ["p"]
                   (fs_with_manifest cra_build_text) cra_build_text
                   cra_build_manifest
                   {[ "build" := JStr "react-scripts build" ]}
                   {[ "react-scripts" := JStr "5" ]} _ _ _ _) _ _ _);
    try reflexivity; by eexists.
Defined.

(** X2 at the manifest with [next] and a number for its scripts. *)
Lemma next_dependency_wins_witness :
  detect_project_type (load_one next_odd_text next_odd_manifest) ["p"]
    (fs_with_manifest next_odd_text) = nextjs.
Proof.
  apply (next_dependency_wins (load_one next_odd_text next_odd_manifest) ["p"]
           (fs_with_manifest next_odd_text) next_odd_text
           {[ "dependencies" := JObj {[ "next" := JStr "14" ]};
              "scripts" := JInt 5 ]}
           {[ "next" := JStr "14" ]});
    try reflexivity. by eexists.
Defined.

(** X4 at the manifest without anything, in a project without
    [index.html]. *)
Lemma manifest_without_markers_is_static_witness :
  detect_project_type (load_one empty_manifest_text (JObj ∅)) ["p"]
    (fs_with_manifest empty_manifest_text) = static.
Proof.
  apply (manifest_without_markers_is_static
           (load_one empty_manifest_text (JObj ∅)) ["p"]
           (fs_with_manifest empty_manifest_text) empty_manifest_text
           (JObj ∅) ∅ ∅);
    try reflexivity. done.
Defined.

(** X5 at the manifest whose dependencies are the string
    [my-nextcloud]. *)
Lemma dependencies_array_or_string_witness :
  detect_project_type (load_one string_deps_text string_deps_manifest) ["p"]
    (fs_with_manifest string_deps_text) = nextjs.
Proof.
  refine (proj2 (dependencies_array_or_string
                   (load_one string_deps_text string_deps_manifest) ["p"]
                   (fs_with_manifest string_deps_text) string_deps_text
                   {[ "dependencies" := JStr "my-nextcloud" ]} _ _)
            "my-" "cloud" _);
    reflexivity.
Defined.

(** X7 on the machine where [npm install] runs into the timeout. *)
Lemma build_timeouts_witness :
  build_node_project install_times_out ["p"] (fs_with_manifest vite_text)
    = ((false, "npm install failed: Build timed out after 10 minutes"),
       fs_with_manifest vite_text).
Proof.
  refine (proj1 (build_timeouts install_times_out ["p"]
                   (fs_with_manifest vite_text) (fs_with_manifest vite_text)
                   (fs_with_manifest vite_text) "ok" EmptyString _) _);
    reflexivity.
Defined.

(** X8 with a stale file in the deploy directory. *)
Lemma staging_touches_only_deploy_witness :
  copy_to_deploy ["p"; "dist"] ["d"] fs_stale_deploy = Ok fs_dist_staged ∧
  diverge ["p"; "dist"; "app.js"] ["d"] ∧
  resolve ["p"; "dist"; "app.js"] fs_dist_staged
    = resolve ["p"; "dist"; "app.js"] fs_stale_deploy.
Proof.
  assert (copy_to_deploy ["p"; "dist"] ["d"] fs_stale_deploy = Ok fs_dist_staged)
    as Hrun by (vm_compute; reflexivity).
  assert (diverge ["p"; "dist"; "app.js"] ["d"]) as Hdiv
    by (split; reflexivity).
  split; [exact Hrun|]. split; [exact Hdiv|].
  exact (staging_touches_only_deploy ["p"; "dist"] ["d"]
           fs_stale_deploy fs_dist_staged Hrun ["p"; "dist"; "app.js"] Hdiv).
Defined.

(** X9 with a stale file in the deploy directory. *)
Lemma staging_replaces_wholesale_witness :
  ∃ s1, copy_to_deploy ["p"; "dist"] ["d"] fs_stale_deploy = Ok s1 ∧
        resolve ["d"] s1 = resolve ["p"; "dist"] fs_stale_deploy ∧
        resolve ["p"; "dist"] s1 = resolve ["p"; "dist"] fs_stale_deploy.
Proof.
  apply (staging_replaces_wholesale ["p"; "dist"] ["d"] fs_stale_deploy).
  - split; reflexivity.
  - reflexivity.
  - left. reflexivity.
Defined.

(** X11 with a stale file in the deploy directory. *)
Lemma fallback_page_keeps_entries_witness :
  create_fallback_page ["d"] "Project built but no output found"
    fs_empty_project_stale = Ok fs_empty_project_stale_final ∧
  resolve ["d"] fs_empty_project_stale_final
    = Some (Dir (<["index.html" :=
                     File (html_content "Project built but no output found")]>
                   (entries_at ["d"] fs_empty_project_stale))).
Proof.
  assert (create_fallback_page ["d"] "Project built but no output found"
            fs_empty_project_stale = Ok fs_empty_project_stale_final) as Hrun
    by (vm_compute; reflexivity).
  split; [exact Hrun|].
  exact (proj1 (fallback_page_keeps_entries ["d"]
                  "Project built but no output found"
                  fs_empty_project_stale fs_empty_project_stale_final Hrun)).
Defined.

(** X13: the page of the empty project, written over. *)
Lemma fallback_page_rewritten_witness :
  ∃ s2, create_fallback_page ["d"] "Deployment completed"
          fs_empty_project_stale_final = Ok s2 ∧
        resolve (path_join ["d"] "index.html") s2
          = Some (File (html_content "Deployment completed")) ∧
        resolve ["d"] s2
          = Some (Dir (<["index.html" :=
                           File (html_content "Deployment completed")]>
                         (entries_at ["d"] fs_empty_project_stale))).
Proof.
  apply (fallback_page_rewritten ["d"] "Project built but no output found"
           "Deployment completed" fs_empty_project_stale
           fs_empty_project_stale_final).
  vm_compute. reflexivity.
Defined.

(** X14 at the static site. *)
Lemma no_command_for_static_projects_witness :
  main nothing_runs load_build_only [] ["worker.py"; "/p"; "/d"] fs_static_site
    = main build_exits_1 load_build_only [] ["worker.py"; "/p"; "/d"]
        fs_static_site.
Proof.
  apply (no_command_for_static_projects nothing_runs load_build_only []
           build_exits_1 "worker.py" "/p" "/d" fs_static_site).
  apply elem_of_cons. left. reflexivity.
Defined.

(** X15 at the static site. *)
Lemma static_site_is_copied_whole_witness :
  ∃ s', pipeline nothing_runs load_build_only ["p"] ["d"] fs_static_site = Ok s' ∧
        resolve ["d"] s' = resolve ["p"] fs_static_site.
Proof.
  apply (static_site_is_copied_whole nothing_runs load_build_only
           ["p"] ["d"] fs_static_site).
  - reflexivity.
  - reflexivity.
  - vm_compute. reflexivity.
  - split; reflexivity.
  - right. split; reflexivity.
Defined.

(** X16 at the project with a [dist] whose build fails. *)
Lemma output_is_staged_whatever_the_build_witness :
  build_phase nothing_runs (load_one vite_text vite_manifest) ["p"] fs_vite_dist
    = Ok (false, "npm not available", Some ["p"; "dist"], fs_vite_dist) ∧
  pipeline nothing_runs (load_one vite_text vite_manifest) ["p"] ["d"]
    fs_vite_dist = Ok fs_vite_dist_final ∧
  resolve ["d"] fs_vite_dist_final
    = Some (Dir (if bool_decide
                      (is_Some (entries_at ["p"; "dist"] fs_vite_dist
                                  !! "index.html"))
                 then entries_at ["p"; "dist"] fs_vite_dist
                 else <["index.html" :=
                          File (html_content "Deployment completed")]>
                        (entries_at ["p"; "dist"] fs_vite_dist))).
Proof.
  assert (build_phase nothing_runs (load_one vite_text vite_manifest) ["p"]
            fs_vite_dist
          = Ok (false, "npm not available", Some ["p"; "dist"], fs_vite_dist))
    as Hb by (vm_compute; reflexivity).
  assert (pipeline nothing_runs (load_one vite_text vite_manifest) ["p"] ["d"]
            fs_vite_dist = Ok fs_vite_dist_final) as Hp
    by (vm_compute; reflexivity).
  split; [exact Hb|]. split; [exact Hp|].
  apply (output_is_staged_whatever_the_build nothing_runs
           (load_one vite_text vite_manifest) ["p"] ["d"] ["p"; "dist"]
           false "npm not available" fs_vite_dist fs_vite_dist
           fs_vite_dist_final Hb); [split; reflexivity | exact Hp].
Defined.

(** X17 at the project with the [vite] manifest on the machine without
    [npm]. *)
Lemma npm_missing_page_witness :
  pipeline nothing_runs (load_one vite_text vite_manifest) ["p"] ["d"]
    (fs_with_manifest vite_text) = Ok fs_vite_failed_final ∧
  resolve (path_join ["d"] "index.html") fs_vite_failed_final
    = Some (File (html_content "Build failed: npm not available")).
Proof.
  assert (pipeline nothing_runs (load_one vite_text vite_manifest) ["p"] ["d"]
            (fs_with_manifest vite_text) = Ok fs_vite_failed_final) as Hp
    by (vm_compute; reflexivity).
  split; [exact Hp|].
  apply (npm_missing_page nothing_runs (load_one vite_text vite_manifest)
           ["p"] ["d"] (fs_with_manifest vite_text) (fs_with_manifest vite_text)
           fs_vite_failed_final EmptyString
           "[Errno 2] No such file or directory").
  - apply elem_of_cons. right. apply elem_of_cons. left. reflexivity.
  - reflexivity.
  - vm_compute. reflexivity.
  - reflexivity.
  - exact Hp.
Defined.

(** X18 at the static site deployed onto itself. *)
Lemma deploy_above_project_fails_witness :
  ∃ e, pipeline nothing_runs load_build_only (["p"] ++ []) ["p"] fs_static_site
       = Raise e.
Proof.
  apply (deploy_above_project_fails nothing_runs load_build_only ["p"] []
           true EmptyString None fs_static_site fs_static_site).
  - vm_compute. reflexivity.
  - right. reflexivity.
Defined.

(** X20 at the project path that is a regular file. *)
Lemma project_file_gets_fallback_page_witness :
  main nothing_runs load_build_only [] ["worker.py"; "/p"; "/d"]
    fs_project_is_file = Returned fs_project_is_file_final ∧
  detect_project_type load_build_only (abspath [] "/p") fs_project_is_file
    = unknown ∧
  resolve (path_join (abspath [] "/d") "index.html") fs_project_is_file_final
    = Some (File (html_content "Project built but no output found")).
Proof.
  assert (main nothing_runs load_build_only [] ["worker.py"; "/p"; "/d"]
            fs_project_is_file = Returned fs_project_is_file_final) as Hrun
    by (vm_compute; reflexivity).
  split; [exact Hrun|].
  apply (project_file_gets_fallback_page nothing_runs load_build_only []
           "worker.py" "/p" "/d" "not a directory"
           fs_project_is_file fs_project_is_file_final);
    [reflexivity | exact Hrun].
Defined.

(** X21 at the build output that holds a directory named
    [index.html]: the deploy directory ends with that directory and no
    page. *)
Lemma index_is_a_file_unless_copied_witness :
  stage (Some ["p"; "dist"]) ["p"] ["d"] true EmptyString fs_dist_index_dir
    = Ok fs_dist_index_dir_final ∧
  ensure_index ["d"] fs_dist_index_dir_final = Ok fs_dist_index_dir_final ∧
  ((∃ content,
      resolve (path_join ["d"] "index.html") fs_dist_index_dir_final
        = Some (File content)) ∨
   (∃ source cleaned m mi,
      (Some ["p"; "dist"] = Some source ∨
       Some ["p"; "dist"] = None ∧ source = ["p"]) ∧
      (if path_exists ["d"] fs_dist_index_dir
       then rmtree ["d"] fs_dist_index_dir else Ok fs_dist_index_dir)
        = Ok cleaned ∧
      resolve source cleaned = Some (Dir m) ∧
      m !! "index.html" = Some (Dir mi) ∧
      fs_dist_index_dir_final = fs_dist_index_dir_final ∧
      resolve (path_join ["d"] "index.html") fs_dist_index_dir_final
        = Some (Dir mi))).
Proof.
  assert (stage (Some ["p"; "dist"]) ["p"] ["d"] true EmptyString
            fs_dist_index_dir = Ok fs_dist_index_dir_final) as Hs
    by (vm_compute; reflexivity).
  assert (ensure_index ["d"] fs_dist_index_dir_final
          = Ok fs_dist_index_dir_final) as He by (vm_compute; reflexivity).
  split; [exact Hs|]. split; [exact He|].
  exact (index_is_a_file_unless_copied (Some ["p"; "dist"]) ["p"] ["d"] true
           EmptyString fs_dist_index_dir fs_dist_index_dir_final
           fs_dist_index_dir_final Hs He).
Defined.
